(** * SocialMediaTools: the Facebook client and the record transformer

    A shallow embedding of [social_media_tools/facebook/facebook_client.py]
    and [social_media_tools/facebook/facebook_utils.py].

    - JSON values as an inductive type, objects as [gmap string json];
    - Python's failures as an [outcome]: a value, a raised exception, a
      process exit, or (only for the model's bounded loop) lack of fuel;
    - effects as a state-and-error monad over a [world]: the trace of
      requests, log lines and file writes, the store of the mutable comment
      dictionaries, and the number of clock readings;
    - the network, the date libraries and CoreDataModules as interfaces. *)

From Stdlib Require Import ZArith String Ascii List.
From stdpp Require Import gmap strings list fin_maps pretty.

Local Open Scope string_scope.

(** ** Values *)

(** What [response.json()] yields. Numbers are integers here; no claim
    reads a fraction. *)
Unset Elimination Schemes.
#[warnings="-register-all"]
Inductive json : Type :=
| JNull
| JBool (b : bool)
| JNum (z : Z)
| JStr (s : string)
| JArr (l : list json)
| JObj (m : gmap string json).
Set Elimination Schemes.

(** Hashable Python values, as they key a [dict] or sit in a [set]:
    [True] and [1] are one key, as are [False] and [0]. *)
Inductive pykey : Type :=
| KNone
| KInt (z : Z)
| KStr (s : string).

#[global] Instance pykey_eq_dec : EqDecision pykey.
Proof. solve_decision. Defined.

Definition pykey_enc (k : pykey) : unit + (Z + string) :=
  match k with
  | KNone => inl tt
  | KInt z => inr (inl z)
  | KStr s => inr (inr s)
  end.

Definition pykey_dec (x : unit + (Z + string)) : pykey :=
  match x with
  | inl _ => KNone
  | inr (inl z) => KInt z
  | inr (inr s) => KStr s
  end.

#[global] Instance pykey_countable : Countable pykey.
Proof.
  apply (inj_countable' pykey_enc pykey_dec).
  intros []; reflexivity.
Defined.

(** A query parameter of a request: a string or an integer. *)
Inductive pval : Type :=
| PStr (s : string)
| PInt (z : Z).

(** ** Outcomes *)

Inductive exn : Type :=
| KeyError
| TypeError
| AttributeError
| AssertionError
| ValueError
| IndexError
| OverflowError
| RequestException
| LibraryError (name : string).

Inductive outcome (A : Type) : Type :=
| Ok (a : A)
| Raise (e : exn)
| Exit (code : Z)
| OutOfFuel.

Arguments Ok {A} a.
Arguments Raise {A} e.
Arguments Exit {A} code.
Arguments OutOfFuel {A}.

#[global] Instance outcome_ret : MRet outcome := fun _ a => Ok a.

#[global] Instance outcome_bind : MBind outcome := fun _ _ f o =>
  match o with
  | Ok a => f a
  | Raise e => Raise e
  | Exit c => Exit c
  | OutOfFuel => OutOfFuel
  end.

(** [for x in l: acc = step(acc, x)], stopping at the first failure. *)
Fixpoint for_each {A B : Type} (step : A -> B -> outcome A) (acc : A)
    (l : list B) : outcome A :=
  match l with
  | [] => Ok acc
  | x :: l' => acc' ← step acc x; for_each step acc' l'
  end.

(** ** Python's operations on JSON values *)

(** [p in s] on strings. *)
Fixpoint substringb (p s : string) : bool :=
  String.prefix p s ||
  match s with
  | EmptyString => false
  | String _ s' => substringb p s'
  end.

Definition json_is_str (k : string) (j : json) : bool :=
  match j with
  | JStr s => bool_decide (s = k)
  | _ => false
  end.

Fixpoint chars (s : string) : list string :=
  match s with
  | EmptyString => []
  | String c s' => String c EmptyString :: chars s'
  end.

(** [k in j] for a string [k]. *)
Definition py_in (k : string) (j : json) : outcome bool :=
  match j with
  | JObj m => Ok (bool_decide (is_Some (m !! k)))
  | JArr l => Ok (existsb (json_is_str k) l)
  | JStr s => Ok (substringb k s)
  | _ => Raise TypeError
  end.

(** [j[k]] for a string [k]. *)
Definition py_getitem (j : json) (k : string) : outcome json :=
  match j with
  | JObj m => match m !! k with Some v => Ok v | None => Raise KeyError end
  | _ => Raise TypeError
  end.

(** [j[0]]. *)
Definition py_getitem0 (j : json) : outcome json :=
  match j with
  | JArr l => match l with x :: _ => Ok x | [] => Raise IndexError end
  | JStr s => match s with
              | String c _ => Ok (JStr (String c EmptyString))
              | EmptyString => Raise IndexError
              end
  | JObj _ => Raise KeyError
  | _ => Raise TypeError
  end.

(** [j.get(k, d)]. *)
Definition py_get (j : json) (k : string) (d : json) : outcome json :=
  match j with
  | JObj m => Ok (default d (m !! k))
  | _ => Raise AttributeError
  end.

(** [len(j)]. *)
Definition py_len (j : json) : outcome nat :=
  match j with
  | JArr l => Ok (length l)
  | JStr s => Ok (String.length s)
  | JObj m => Ok (size m)
  | _ => Raise TypeError
  end.

(** The elements a [for] loop or [extend] draws from [j]: the entries of a
    list, the characters of a string, the keys of an object (in the map's
    order, not in the order of insertion). *)
Definition py_iter (j : json) : outcome (list json) :=
  match j with
  | JArr l => Ok l
  | JStr s => Ok (JStr <$> chars s)
  | JObj m => Ok (JStr <$> (map_to_list m).*1)
  | _ => Raise TypeError
  end.

(** [result.extend(x)]: only a list has the method. *)
Definition py_extend (result x : json) : outcome json :=
  match result with
  | JArr l => xs ← py_iter x; Ok (JArr (l ++ xs))
  | _ => Raise AttributeError
  end.

(** [hash(j)], as needed for a dictionary key or a set element. *)
Definition py_hash (j : json) : outcome pykey :=
  match j with
  | JNull => Ok KNone
  | JBool b => Ok (KInt (if b then 1 else 0)%Z)
  | JNum z => Ok (KInt z)
  | JStr s => Ok (KStr s)
  | JArr _ | JObj _ => Raise TypeError
  end.

(** [j in {s1, s2, ...}] for a set of strings. *)
Definition py_in_strs (j : json) (ss : list string) : outcome bool :=
  match j with
  | JStr s => Ok (bool_decide (s ∈ ss))
  | JArr _ | JObj _ => Raise TypeError
  | _ => Ok false
  end.

(** [sep.join(l)]. *)
Fixpoint join (sep : string) (l : list string) : string :=
  match l with
  | [] => ""
  | [x] => x
  | x :: l' => x ++ sep ++ join sep l'
  end.

(** [s.replace(old, new)] for a non-empty [old]: the occurrences from the
    left, without overlap. [skip] counts the characters of a match still to
    be dropped. *)
Fixpoint replace_from (old new : string) (skip : nat) (s : string) : string :=
  match s with
  | EmptyString => EmptyString
  | String c s' =>
      match skip with
      | S k => replace_from old new k s'
      | O =>
          if String.prefix old s
          then new ++ replace_from old new (String.length old - 1) s'
          else String c (replace_from old new O s')
      end
  end.

Definition str_replace (old new s : string) : string :=
  replace_from old new O s.

(** ** The world *)

Inductive level : Type := DEBUG | INFO | ERROR.

(** What the program does to its surroundings, in order. A log line keeps
    its text; an object interpolated at the end of the text is kept as a
    value rather than rendered. *)
Inductive event : Type :=
| EvGet (url : string) (params : option (gmap string pval))
| EvLog (lvl : level) (msg : string) (obj : option json)
| EvJsonDump (file : nat) (j : json)
| EvWrite (file : nat) (s : string).

(** References to dictionary objects. *)
Definition loc := nat.

Record world : Type := World {
  trace : list event;
  heap : gmap loc (gmap string json);
  clock_reads : nat
}.

Definition M (A : Type) : Type := world -> outcome A * world.

#[global] Instance M_ret : MRet M := fun _ a w => (Ok a, w).

#[global] Instance M_bind : MBind M := fun _ _ f m w =>
  match m w with
  | (Ok a, w') => f a w'
  | (Raise e, w') => (Raise e, w')
  | (Exit c, w') => (Exit c, w')
  | (OutOfFuel, w') => (OutOfFuel, w')
  end.

Definition lift {A : Type} (o : outcome A) : M A := fun w => (o, w).

(** The world after one more event. *)
Definition record (e : event) (w : world) : world :=
  World (trace w ++ [e]) (heap w) (clock_reads w).

Definition emit (e : event) : M unit := fun w => (Ok tt, record e w).

Definition log_debug (msg : string) : M unit := emit (EvLog DEBUG msg None).
Definition log_info (msg : string) : M unit := emit (EvLog INFO msg None).
Definition log_error (msg : string) (obj : json) : M unit :=
  emit (EvLog ERROR msg (Some obj)).

(** [exit(code)]: the [SystemExit] it raises ends the process, and is kept
    apart from the exceptions a caller would handle. *)
Definition py_exit {A : Type} (code : Z) : M A := lift (Exit code).

(** Reading and writing a dictionary object. A reference that holds no
    dictionary cannot be subscripted by a string. *)
Definition deref (l : loc) : M (gmap string json) := fun w =>
  match heap w !! l with
  | Some d => (Ok d, w)
  | None => (Raise TypeError, w)
  end.

Definition setitem (l : loc) (k : string) (v : json) : M unit := fun w =>
  match heap w !! l with
  | Some d => (Ok tt, World (trace w) (<[l := <[k := v]> d]> (heap w)) (clock_reads w))
  | None => (Raise TypeError, w)
  end.

(** [for x in l: acc = step(acc, x)] with effects. *)
Fixpoint for_eachM {A B : Type} (step : A -> B -> M A) (acc : A)
    (l : list B) : M A :=
  match l with
  | [] => mret acc
  | x :: l' => acc' ← step acc x; for_eachM step acc' l'
  end.

(** ** The libraries the code calls *)

(** [requests]: a response is what its [json()] method gives, a value or
    the exception of a body that does not parse. *)
Record Response : Type := { Response_json : outcome json }.

(** The network: what [requests.get(url, params)] answers. *)
Definition network : Type :=
  string -> option (gmap string pval) -> outcome Response.

(** [datetime], [pytz] and [dateutil]. *)
Class DateLib : Type := {
  datetime : Type;
  (** [dateutil.parser.isoparse(s)] *)
  isoparse : string -> outcome datetime;
  (** [d.isoformat()] *)
  isoformat : datetime -> string;
  (** [d.astimezone(pytz.utc)] *)
  astimezone_utc : datetime -> outcome datetime
}.

(** CoreDataModules: the validator, the call location recorded in a
    [Metadata], and the clock, whose [n]-th reading is [utc_now n]. *)
Class CoreData : Type := {
  validate_utc_iso_string : string -> outcome unit;
  get_call_location : string;
  utc_now : nat -> string
}.

Record Metadata : Type := {
  md_user : string;
  md_source : string;
  md_timestamp : string
}.

Record TracedData : Type := {
  td_data : gmap string json;
  td_metadata : Metadata
}.

(** The identifier table: [data_to_uuid_batch] of a set of identifiers. *)
Record UuidTable : Type := {
  data_to_uuid_batch : gset pykey -> outcome (gmap pykey json)
}.

Definition utc_now_as_iso_string `{CD : CoreData} : M string := fun w =>
  (Ok (utc_now (clock_reads w)),
   World (trace w) (heap w) (S (clock_reads w))).

(** ** facebook_client.py *)

Definition _BASE_URL : string := "https://graph.facebook.com/v8.0".

(** For paged requests, the maximum number of records to request in each
    page. *)
Definition _MAX_RESULTS_PER_PAGE : Z := 100.

Definition no_data_msg : string :=
  "Response from Facebook did not contain a 'data' field. The returned data is probably an error message: ".

Record FacebookClient : Type := { _access_token : string }.

Section Client.
Context (net : network) `{DL : DateLib}.

(** [requests.get(url, params)]. *)
Definition requests_get (url : string)
    (params : option (gmap string pval)) : M Response :=
  emit (EvGet url params);; lift (net url params).

(** [requests.get(next_url)] with the cursor read from a page: anything
    but a string is no URL and the library refuses it. *)
Definition requests_get_json (next_url : json) : M Response :=
  match next_url with
  | JStr url => requests_get url None
  | _ => lift (Raise RequestException)
  end.

Definition json_of (response : Response) : M json :=
  lift (Response_json response).

Definition _date_to_facebook_time (date : datetime) : outcome string :=
  d ← astimezone_utc date;
  Ok (str_replace "+00:00" "Z" (isoformat d)).

Definition _make_get_request (self : FacebookClient) (endpoint : string)
    (params : option (gmap string pval)) : M json :=
  let params := default ∅ params in
  let params := <["access_token" := PStr (_access_token self)]> params in
  let url := _BASE_URL ++ endpoint in
  response ← requests_get url (Some params);
  json_of response.

(** The guard on each page: [if "data" not in response.json(): ...]. *)
Definition check_data (response : Response) : M unit :=
  j ← json_of response;
  has_data ← lift (py_in "data" j);
  if negb has_data
  then j' ← json_of response;
       log_error no_data_msg j';;
       py_exit 1
  else mret tt.

(** [while next_url is not None: ...]; [fuel] bounds the number of
    iterations the model follows. *)
Fixpoint paged_loop (fuel : nat) (result next_url : json) : M json :=
  match next_url with
  | JNull => mret result
  | _ =>
      match fuel with
      | O => lift OutOfFuel
      | S fuel' =>
          response ← requests_get_json next_url;
          check_data response;;
          j ← json_of response;
          page ← lift (py_getitem j "data");
          result' ← lift (py_extend result page);
          j' ← json_of response;
          paging ← lift (py_getitem j' "paging");
          next_url' ← lift (py_get paging "next" JNull);
          paged_loop fuel' result' next_url'
      end
  end.

Definition _make_paged_get_request (fuel : nat) (self : FacebookClient)
    (endpoint : string) (params : option (gmap string pval)) : M json :=
  let params := default ∅ params in
  let params := <["access_token" := PStr (_access_token self)]> params in
  let url := _BASE_URL ++ endpoint in
  response ← requests_get url (Some params);
  check_data response;;
  j ← json_of response;
  result ← lift (py_getitem j "data");
  j' ← json_of response;
  paging ← lift (py_get j' "paging" (JObj ∅));
  next_url ← lift (py_get paging "next" JNull);
  paged_loop fuel result next_url.

Definition get_post (self : FacebookClient) (post_id : string)
    (fields : list string) : M json :=
  log_info ("Fetching post '" ++ post_id ++ "'...");;
  _make_get_request self ("/" ++ post_id)
    (Some {[ "fields" := PStr (join "," fields) ]}).

Definition get_posts_published_by_page (fuel : nat) (self : FacebookClient)
    (page_id : string) (fields : list string)
    (created_after created_before : option datetime) : M json :=
  let log_str := "Fetching all posts published by page '" ++ page_id ++ "'" in
  let log_str :=
    match created_after with
    | Some d => log_str ++ ", created after " ++ isoformat d
    | None => log_str
    end in
  let log_str :=
    match created_before with
    | Some d => log_str ++ ", created after " ++ isoformat d
    | None => log_str
    end in
  log_debug (log_str ++ "...");;
  let params : gmap string pval :=
    <["limit" := PInt _MAX_RESULTS_PER_PAGE]>
      {[ "fields" := PStr (join "," fields) ]} in
  params ← match created_after with
           | Some d => t ← lift (_date_to_facebook_time d);
                       mret (<["since" := PStr t]> params)
           | None => mret params
           end;
  params ← match created_before with
           | Some d => t ← lift (_date_to_facebook_time d);
                       mret (<["until" := PStr t]> params)
           | None => mret params
           end;
  posts ← _make_paged_get_request fuel self
            ("/" ++ page_id ++ "/published_posts") (Some params);
  n ← lift (py_len posts);
  log_info ("Fetched " ++ pretty n ++ " posts");;
  mret posts.

Definition get_all_comments_on_post (fuel : nat) (self : FacebookClient)
    (post_id : string) (fields : list string)
    (raw_export_log_file : option nat) : M json :=
  log_info ("Fetching all comments on post '" ++ post_id ++ "'...");;
  comments ← _make_paged_get_request fuel self
               ("/" ++ post_id ++ "/comments")
               (Some (<["filter" := PStr "stream"]>
                        (<["limit" := PInt _MAX_RESULTS_PER_PAGE]>
                           {[ "fields" := PStr (join "," fields) ]})));
  n ← lift (py_len comments);
  log_info ("Fetched " ++ pretty n ++ " comments");;
  match raw_export_log_file with
  | Some f =>
      n' ← lift (py_len comments);
      log_info ("Logging " ++ pretty n' ++ " fetched comments...");;
      emit (EvJsonDump f comments);;
      emit (EvWrite f (String (ascii_of_nat 10) EmptyString));;
      log_info "Logged fetched comments"
  | None =>
      log_debug "Not logging the raw export (argument 'raw_export_log_file' was None)"
  end;;
  mret comments.

Definition get_raw_metrics_for_post (self : FacebookClient)
    (post_id : string) (metrics : list string) : M json :=
  j ← _make_get_request self
        ("/" ++ post_id ++ "/insights?metric=" ++ join "," metrics) None;
  lift (py_getitem j "data").

(** The body of [for m in raw_metrics]. The assertion's message reads
    [m['name']] and [len(m['values'])] before the error is raised; the
    assignment evaluates its right side first, then the key. *)
Definition metrics_step (cleaned_metrics : gmap pykey json) (m : json)
    : outcome (gmap pykey json) :=
  values ← py_getitem m "values";
  n ← py_len values;
  if negb (n =? 1)%nat
  then _ ← py_getitem m "name";
       values' ← py_getitem m "values";
       _ ← py_len values';
       Raise AssertionError
  else values' ← py_getitem m "values";
       v0 ← py_getitem0 values';
       v ← py_getitem v0 "value";
       name ← py_getitem m "name";
       key ← py_hash name;
       Ok (<[key := v]> cleaned_metrics).

Definition get_metrics_for_post (self : FacebookClient)
    (post_id : string) (metrics : list string) : M (gmap pykey json) :=
  raw_metrics ← get_raw_metrics_for_post self post_id metrics;
  ms ← lift (py_iter raw_metrics);
  lift (for_each metrics_step ∅ ms).

End Client.

(** ** facebook_utils.py *)

(** [x in {"video", None}] and [x in {"photo", None}] for the running
    post type. *)
Definition type_in (post_type : option string) (s : string) : bool :=
  match post_type with
  | None => true
  | Some t => bool_decide (t = s)
  end.

(** [attachment["type"] == "photo"]. *)
Definition py_eq_str (j : json) (s : string) : bool := json_is_str s j.

(** The body of [for attachment in post["attachments"]["data"]]. An
    [assert] is executed, as Python does unless run with [-O]. *)
Definition clean_step (post_type : option string) (attachment : json)
    : outcome (option string) :=
  t ← py_getitem attachment "type";
  known ← py_in_strs t ["video_inline"; "video_direct_response"; "photo"];
  if negb known then Raise AssertionError else
  t1 ← py_getitem attachment "type";
  is_video ← py_in_strs t1 ["video_inline"; "video_direct_response"];
  if (is_video : bool)
  then if negb (type_in post_type "video") then Raise AssertionError
       else Ok (Some "video")
  else t2 ← py_getitem attachment "type";
       if py_eq_str t2 "photo"
       then if negb (type_in post_type "photo") then Raise AssertionError
            else Ok (Some "photo")
       else Ok post_type.

Definition clean_post_type (post : json) : outcome (option string) :=
  attachments ← py_getitem post "attachments";
  data ← py_getitem attachments "data";
  l ← py_iter data;
  for_each clean_step None l.

Section Utils.
Context `{DL : DateLib} `{CD : CoreData}.

(** [comment["from"]["id"]] of the dictionary at [c], hashed. *)
Definition author_key (c : loc) : M pykey :=
  comment ← deref c;
  from ← lift (py_getitem (JObj comment) "from");
  id ← lift (py_getitem from "id");
  lift (py_hash id).

(** [{comment["from"]["id"] for comment in raw_comments}]. *)
Definition author_keys (raw_comments : list loc) : M (gset pykey) :=
  for_eachM (fun acc c => k ← author_key c; mret ({[ k ]} ∪ acc)) ∅
    raw_comments.

(** [for k, v in comment.items(): comment_dict[f"{dataset_name}.{k}"] = v]. *)
Definition add_items (dataset_name : string)
    (items : list (string * json)) (comment_dict : gmap string json)
    : gmap string json :=
  fold_left (fun acc kv => <[dataset_name ++ "." ++ kv.1 := kv.2]> acc)
    items comment_dict.

(** The body of [for comment in raw_comments]. *)
Definition convert_step (user dataset_name : string)
    (facebook_to_uuid_lut : gmap pykey json)
    (traced_comments : list TracedData) (c : loc) : M (list TracedData) :=
  comment ← deref c;
  created ← lift (py_getitem (JObj comment) "created_time");
  d ← lift (match created with
            | JStr s => isoparse s
            | _ => Raise TypeError
            end);
  setitem c "created_time" (JStr (isoformat d));;
  comment ← deref c;
  created' ← lift (py_getitem (JObj comment) "created_time");
  lift (match created' with
        | JStr s => validate_utc_iso_string s
        | _ => Raise AssertionError
        end);;
  k ← author_key c;
  uuid ← lift (match facebook_to_uuid_lut !! k with
               | Some u => Ok u
               | None => Raise KeyError
               end);
  let comment_dict : gmap string json := {[ "avf_facebook_id" := uuid ]} in
  comment ← deref c;
  let comment_dict := add_items dataset_name (map_to_list comment) comment_dict in
  now ← utc_now_as_iso_string;
  mret (traced_comments ++
        [ {| td_data := comment_dict;
             td_metadata := {| md_user := user;
                               md_source := get_call_location;
                               md_timestamp := now |} |} ])%list.

Definition convert_facebook_comments_to_traced_data (user dataset_name : string)
    (raw_comments : list loc) (facebook_uuid_table : UuidTable)
    : M (list TracedData) :=
  log_info ("Converting " ++ pretty (length raw_comments)
            ++ " Facebook comments to TracedData...");;
  facebook_uuids ← author_keys raw_comments;
  facebook_to_uuid_lut ← lift (data_to_uuid_batch facebook_uuid_table facebook_uuids);
  traced_comments ← for_eachM (convert_step user dataset_name facebook_to_uuid_lut)
                      [] raw_comments;
  log_info ("Converted " ++ pretty (length traced_comments)
            ++ " Facebook comments to TracedData");;
  mret traced_comments.

End Utils.

(** ** A calendar model of the date libraries

    An executable instance of [DateLib] and [CoreData], used where a
    statement is evaluated on concrete timestamps. It covers the extended
    ISO 8601 form the Graph API serves and [isoformat] writes,
    [YYYY-MM-DD] followed by a separator and [HH:MM:SS], an optional
    fraction of at most six digits and an optional zone ([Z], [+HH:MM],
    [+HHMM] or [+HH]); any other text is a [ValueError] here. Offsets are
    whole minutes. *)
Module PyDates.

Record dt : Type := {
  year : Z; month : Z; day : Z;
  hour : Z; minute : Z; second : Z; microsecond : Z;
  (** minutes east of UTC; [None] for a naive datetime *)
  utcoffset : option Z
}.

Definition digit_val (c : ascii) : option Z :=
  let n := Z.of_nat (nat_of_ascii c) in
  if bool_decide (48 ≤ n ≤ 57)%Z then Some (n - 48)%Z else None.

(** Exactly [n] digits from the front of [s]. *)
Fixpoint read_digits (n : nat) (acc : Z) (s : string) : option (Z * string) :=
  match n with
  | O => Some (acc, s)
  | S n' =>
      match s with
      | String c s' =>
          v ← digit_val c; read_digits n' (10 * acc + v)%Z s'
      | EmptyString => None
      end
  end.

Definition expect (c : ascii) (s : string) : option string :=
  match s with
  | String c' s' => if bool_decide (c = c') then Some s' else None
  | EmptyString => None
  end.

(** Up to [n] more digits of a fraction, scaled to [n] places. *)
Fixpoint read_fraction (n : nat) (acc : Z) (s : string) : Z * string :=
  match n with
  | O => (acc, s)
  | S n' =>
      match s with
      | String c s' =>
          match digit_val c with
          | Some v => read_fraction n' (10 * acc + v)%Z s'
          | None => ((acc * 10 ^ Z.of_nat n)%Z, s)
          end
      | EmptyString => ((acc * 10 ^ Z.of_nat n)%Z, s)
      end
  end.

Definition is_leap (y : Z) : bool :=
  bool_decide (y mod 4 = 0)%Z &&
  (negb (bool_decide (y mod 100 = 0)%Z) || bool_decide (y mod 400 = 0)%Z).

Definition days_in_month (y m : Z) : Z :=
  if bool_decide (m = 2)%Z then (if is_leap y then 29 else 28)%Z
  else if bool_decide (m = 4 ∨ m = 6 ∨ m = 9 ∨ m = 11)%Z then 30%Z
  else 31%Z.

Definition parse_zone (s : string) : option (option Z) :=
  match s with
  | EmptyString => Some None
  | "Z" => Some (Some 0%Z)
  | String sign s' =>
      sgn ← (if bool_decide (sign = "+"%char) then Some 1%Z
             else if bool_decide (sign = "-"%char) then Some (-1)%Z
             else None);
      '(hh, s1) ← read_digits 2 0 s';
      mm ← match s1 with
           | EmptyString => Some 0%Z
           | String ":" s2 =>
               '(mm, s3) ← read_digits 2 0 s2;
               if bool_decide (s3 = EmptyString) then Some mm else None
           | _ =>
               '(mm, s3) ← read_digits 2 0 s1;
               if bool_decide (s3 = EmptyString) then Some mm else None
           end;
      if bool_decide (hh ≤ 23 ∧ mm ≤ 59)%Z
      then Some (Some (sgn * (60 * hh + mm))%Z)
      else None
  end.

Definition parse (s : string) : option dt :=
  '(y, s) ← read_digits 4 0 s;
  s ← expect "-" s;
  '(m, s) ← read_digits 2 0 s;
  s ← expect "-" s;
  '(d, s) ← read_digits 2 0 s;
  if negb (bool_decide (1 ≤ y ∧ 1 ≤ m ≤ 12 ∧ 1 ≤ d ≤ days_in_month y m)%Z)
  then None else
  match s with
  | EmptyString => Some (Build_dt y m d 0 0 0 0 None)
  | String _ s =>
      '(h, s) ← read_digits 2 0 s;
      s ← expect ":" s;
      '(mi, s) ← read_digits 2 0 s;
      s ← expect ":" s;
      '(sec, s) ← read_digits 2 0 s;
      '(us, s) ← match s with
                 | String c s' =>
                     if bool_decide (c = "."%char ∨ c = ","%char)
                     then '(v, s1) ← read_digits 1 0 s';
                          Some (read_fraction 5 v s1)
                     else Some (0%Z, s)
                 | EmptyString => Some (0%Z, s)
                 end;
      tz ← parse_zone s;
      if bool_decide (h ≤ 23 ∧ mi ≤ 59 ∧ sec ≤ 59)%Z
      then Some (Build_dt y m d h mi sec us tz)
      else None
  end.

Definition digit_char (z : Z) : ascii :=
  ascii_of_nat (48 + Z.to_nat (z mod 10)).

(** [z] in decimal, [w] digits wide, zeros in front. *)
Fixpoint pad (w : nat) (z : Z) (acc : string) : string :=
  match w with
  | O => acc
  | S w' => pad w' (z / 10)%Z (String (digit_char z) acc)
  end.

Definition format_zone (tz : option Z) : string :=
  match tz with
  | None => ""
  | Some off =>
      (if bool_decide (off < 0)%Z then "-" else "+")
      ++ pad 2 (Z.abs off / 60)%Z "" ++ ":" ++ pad 2 (Z.abs off mod 60)%Z ""
  end.

Definition format (d : dt) : string :=
  pad 4 (year d) "" ++ "-" ++ pad 2 (month d) "" ++ "-" ++ pad 2 (day d) ""
  ++ "T" ++ pad 2 (hour d) "" ++ ":" ++ pad 2 (minute d) "" ++ ":"
  ++ pad 2 (second d) ""
  ++ (if bool_decide (microsecond d = 0)%Z then ""
      else "." ++ pad 6 (microsecond d) "")
  ++ format_zone (utcoffset d).

(** Days since 1970-01-01 of a date of the proleptic Gregorian calendar,
    and back. *)
Definition days_from_civil (y m d : Z) : Z :=
  (let y := if bool_decide (m ≤ 2) then y - 1 else y in
   let era := y / 400 in
   let yoe := y - era * 400 in
   let mp := (m + 9) mod 12 in
   let doy := (153 * mp + 2) / 5 + d - 1 in
   let doe := yoe * 365 + yoe / 4 - yoe / 100 + doy in
   era * 146097 + doe - 719468)%Z.

Definition civil_from_days (z : Z) : Z * Z * Z :=
  (let z := z + 719468 in
   let era := z / 146097 in
   let doe := z - era * 146097 in
   let yoe := (doe - doe / 1460 + doe / 36524 - doe / 146096) / 365 in
   let doy := doe - (365 * yoe + yoe / 4 - yoe / 100) in
   let mp := (5 * doy + 2) / 153 in
   let d := doy - (153 * mp + 2) / 5 + 1 in
   let m := if bool_decide (mp < 10) then mp + 3 else mp - 9 in
   let y := yoe + era * 400 + (if bool_decide (m ≤ 2) then 1 else 0) in
   (y, m, d))%Z.

(** [d.astimezone(pytz.utc)]; a naive [d] is read in the machine's zone,
    [local] minutes east of UTC. *)
Definition to_utc (local : Z) (d : dt) : outcome dt :=
  (let off := default local (utcoffset d) in
   let mins := days_from_civil (year d) (month d) (day d) * 1440
               + hour d * 60 + minute d - off in
   let '(y, m, dd) := civil_from_days (mins / 1440) in
   if bool_decide (1 ≤ y ≤ 9999)
   then Ok (Build_dt y m dd (mins mod 1440 / 60) (mins mod 60)
              (second d) (microsecond d) (Some 0))
   else Raise OverflowError)%Z.

Definition date_lib (local : Z) : DateLib := {|
  datetime := dt;
  isoparse s := match parse s with Some d => Ok d | None => Raise ValueError end;
  isoformat := format;
  astimezone_utc := to_utc local
|}.

(** The validator accepts a string that parses and carries the offset
    zero; [location] and [now] stand for the call site and the clock. *)
Definition core_data (location : string) (now : nat -> string) : CoreData := {|
  validate_utc_iso_string s :=
    match parse s with
    | Some d => if bool_decide (utcoffset d = Some 0%Z) then Ok tt
                else Raise AssertionError
    | None => Raise AssertionError
    end;
  get_call_location := location;
  utc_now := now
|}.

End PyDates.

(** ** Shapes of the data the claims speak about *)

(** The attachment list of a post, [post["attachments"]["data"]]. *)
Definition attachments_of (post : json) : option (list json) :=
  match post with
  | JObj m =>
      match m !! "attachments" with
      | Some (JObj am) =>
          match am !! "data" with
          | Some (JArr l) => Some l
          | _ => None
          end
      | _ => None
      end
  | _ => None
  end.

(** The type of an attachment, when it is an object with a string under
    ["type"]. *)
Definition attachment_type (a : json) : option string :=
  match a with
  | JObj m => match m !! "type" with Some (JStr t) => Some t | _ => None end
  | _ => None
  end.

Definition is_photo (a : json) : bool :=
  bool_decide (attachment_type a = Some "photo").

Definition is_video (a : json) : bool :=
  bool_decide (attachment_type a = Some "video_inline"
               ∨ attachment_type a = Some "video_direct_response").

Definition has_type (a : json) : bool :=
  bool_decide (is_Some (attachment_type a)).

(** The kind a type string stands for. *)
Definition kind_of (t : string) : option string :=
  if bool_decide (t = "video_inline" ∨ t = "video_direct_response")
  then Some "video"
  else if bool_decide (t = "photo") then Some "photo"
  else None.

(** The kind of an attachment: ["photo"], ["video"], or none when the type
    is missing or not a recognised one. *)
Definition kind_at (a : json) : option string :=
  t ← attachment_type a; kind_of t.

(** ** Sample data *)
Module Samples.

Definition attachment (t : string) : json := JObj {[ "type" := JStr t ]}.

Definition post_with (l : list json) : json :=
  JObj {[ "attachments" := JObj {[ "data" := JArr l ]} ]}.

Definition mixed : list json :=
  [attachment "photo"; attachment "video_inline"].
Definition unknown : list json := [attachment "photo"; attachment "share"].

End Samples.

(** ** Pages and cursor chains *)

(** A page after the first: an object with the records [d] under ["data"]
    and a ["paging"] object whose ["next"] cursor is [next] ([JNull] when
    there is none). *)
Definition page_of (j : json) (d : list json) (next : json) : Prop :=
  ∃ m pg, j = JObj m ∧ m !! "data" = Some (JArr d)
          ∧ m !! "paging" = Some (JObj pg)
          ∧ default JNull (pg !! "next") = next.

(** The first page: as above, but ["paging"] may be absent. *)
Definition first_page_of (j : json) (d : list json) (next : json) : Prop :=
  ∃ m, j = JObj m ∧ m !! "data" = Some (JArr d)
       ∧ ((m !! "paging" = None ∧ next = JNull)
          ∨ ∃ pg, m !! "paging" = Some (JObj pg)
                  ∧ default JNull (pg !! "next") = next).

(** How a chain of pages ends: with a page that has no further cursor,
    with a response that has no ["data"] field, or with a page that has
    its records but no ["paging"] field. *)
Inductive ending : Type :=
| Finished
| NoData (body : gmap string json)
| NoPaging.

(** The pages the network serves when the cursor [next] is followed, and
    how the chain ends. *)
Inductive chain (net : network) : json -> list (list json) -> ending -> Prop :=
| chain_end : chain net JNull [] Finished
| chain_no_data (url : string) (r : Response) (m : gmap string json) :
    net url None = Ok r ->
    Response_json r = Ok (JObj m) ->
    m !! "data" = None ->
    chain net (JStr url) [] (NoData m)
| chain_no_paging (url : string) (r : Response) (m : gmap string json)
    (d : list json) :
    net url None = Ok r ->
    Response_json r = Ok (JObj m) ->
    m !! "data" = Some (JArr d) ->
    m !! "paging" = None ->
    chain net (JStr url) [d] NoPaging
| chain_page (url : string) (r : Response) (j : json) (d : list json)
    (next : json) (ds : list (list json)) (e : ending) :
    net url None = Ok r ->
    Response_json r = Ok j ->
    page_of j d next ->
    chain net next ds e ->
    chain net (JStr url) (d :: ds) e.

(** The pages served for a first request and the cursors after it. *)
Definition serves (net : network) (url : string) (params : gmap string pval)
    (pages : list (list json)) (e : ending) : Prop :=
  (∃ r m, pages = [] ∧ e = NoData m
          ∧ net url (Some params) = Ok r
          ∧ Response_json r = Ok (JObj m)
          ∧ m !! "data" = None)
  ∨ (∃ r j d next ds,
       pages = d :: ds
       ∧ net url (Some params) = Ok r
       ∧ Response_json r = Ok j
       ∧ first_page_of j d next
       ∧ chain net next ds e).

(** What the paged request comes to on a chain with the pages [pages]
    and the ending [e]. *)
Definition paged_outcome (pages : list (list json)) (e : ending)
    : outcome json :=
  match e with
  | Finished => Ok (JArr (concat pages))
  | NoData _ => Exit 1
  | NoPaging => Raise KeyError
  end.

(** What a run leaves behind on a chain: the store and the clock are as
    before; after a response without ["data"] the trace ends with the
    request that fetched it and the error line. *)
Definition left_behind (e : ending) (w w' : world) : Prop :=
  heap w' = heap w ∧ clock_reads w' = clock_reads w
  ∧ match e with
    | NoData m =>
        ∃ t url params,
          trace w' = (t ++ [EvGet url params;
                            EvLog ERROR no_data_msg (Some (JObj m))])%list
    | _ => True
    end.

(** ** The requests the client sends *)

Definition with_token (self : FacebookClient) (params : gmap string pval)
    : gmap string pval :=
  <["access_token" := PStr (_access_token self)]> params.

Definition with_param (k : string) (v : option string)
    (params : gmap string pval) : gmap string pval :=
  match v with
  | Some s => <[k := PStr s]> params
  | None => params
  end.

Definition posts_url (page_id : string) : string :=
  _BASE_URL ++ "/" ++ page_id ++ "/published_posts".

(** The parameters of the request for a page's posts, [since] and [until]
    being the converted bounds of the date range. *)
Definition posts_params (self : FacebookClient) (fields : list string)
    (since until : option string) : gmap string pval :=
  with_token self
    (with_param "until" until
       (with_param "since" since
          (<["limit" := PInt _MAX_RESULTS_PER_PAGE]>
             {[ "fields" := PStr (join "," fields) ]}))).

Definition comments_url (post_id : string) : string :=
  _BASE_URL ++ "/" ++ post_id ++ "/comments".

Definition comments_params (self : FacebookClient) (fields : list string)
    : gmap string pval :=
  with_token self
    (<["filter" := PStr "stream"]>
       (<["limit" := PInt _MAX_RESULTS_PER_PAGE]>
          {[ "fields" := PStr (join "," fields) ]})).

(** The converted bound of a date range. *)
Definition facebook_time_opt `{DL : DateLib} (date : option datetime)
    : outcome (option string) :=
  match date with
  | Some d => t ← _date_to_facebook_time d; Ok (Some t)
  | None => Ok None
  end.

(** ** Metrics *)

(** The name of a metric, when it is an object with a string under
    ["name"]. *)
Definition metric_name (m : json) : option string :=
  match m with
  | JObj o => match o !! "name" with Some (JStr n) => Some n | _ => None end
  | _ => None
  end.

(** The values of a metric, when it is an object with a list under
    ["values"]. *)
Definition metric_values (m : json) : option (list json) :=
  match m with
  | JObj o => match o !! "values" with Some (JArr l) => Some l | _ => None end
  | _ => None
  end.

(** What an entry of ["values"] holds under ["value"]. *)
Definition value_of (v : json) : option json :=
  match v with
  | JObj o => o !! "value"
  | _ => None
  end.

(** A metric as the Graph API serves it: a name, a list of values, and,
    where the list has one entry, a value in it. *)
Definition metric_ok (m : json) : Prop :=
  is_Some (metric_name m)
  ∧ match metric_values m with
    | Some [v] => is_Some (value_of v)
    | Some _ => True
    | None => False
    end.

(** The number of values of a metric. *)
Definition value_count (m : json) : nat :=
  match metric_values m with
  | Some l => length l
  | None => 0
  end.

(** The name and the value of a metric with a single value. *)
Definition metric_pair (m : json) : option (pykey * json) :=
  n ← metric_name m;
  match metric_values m with
  | Some [v] => x ← value_of v; Some (KStr n, x)
  | _ => None
  end.

Definition insights_url (post_id : string) (metrics : list string) : string :=
  _BASE_URL ++ "/" ++ post_id ++ "/insights?metric=" ++ join "," metrics.

(** ** Traces *)

(** A computation only adds to the trace. *)
Definition grows {A : Type} (m : M A) : Prop :=
  forall w, ∃ rest, trace (m w).2 = (trace w ++ rest)%list.

(** ** Comments *)

(** The author id of a comment, [comment["from"]["id"]], when it is a
    string. *)
Definition author_id (comment : gmap string json) : option string :=
  match comment !! "from" with
  | Some (JObj from) =>
      match from !! "id" with Some (JStr id) => Some id | _ => None end
  | _ => None
  end.

(** The timestamp of a comment, when it is a string. *)
Definition created_of (comment : gmap string json) : option string :=
  match comment !! "created_time" with
  | Some (JStr s) => Some s
  | _ => None
  end.

(** The author ids of a list of comments, as the set handed to the
    identifier table. *)
Definition author_set (comments : list (gmap string json)) : gset pykey :=
  list_to_set (omap (fun comment => KStr <$> author_id comment) comments).

(** The comment dictionaries the references of [raw_comments] hold. *)
Definition held (h : gmap loc (gmap string json)) (raw_comments : list loc)
    (comments : list (gmap string json)) : Prop :=
  Forall2 (fun c comment => h !! c = Some comment) raw_comments comments.

Section CommentShapes.
Context `{DL : DateLib} `{CD : CoreData}.

(** The timestamp of a comment parsed and written again. *)
Definition reserialized (comment : gmap string json) : option string :=
  s ← created_of comment;
  match isoparse s with
  | Ok d => Some (isoformat d)
  | _ => None
  end.

(** The comment after its timestamp has been overwritten. *)
Definition rewritten (comment : gmap string json) : gmap string json :=
  match reserialized comment with
  | Some s => <["created_time" := JStr s]> comment
  | None => comment
  end.

(** A comment with an author id and a timestamp that parses. *)
Definition comment_ok (comment : gmap string json) : Prop :=
  is_Some (author_id comment) ∧ is_Some (reserialized comment).

(** The rewritten timestamp of the comment passes the validator. *)
Definition validates (comment : gmap string json) : Prop :=
  ∃ s, reserialized comment = Some s ∧ validate_utc_iso_string s = Ok tt.

(** The table's answer knows the author of the comment. *)
Definition known (lut : gmap pykey json) (comment : gmap string json)
    : Prop :=
  ∃ id, author_id comment = Some id ∧ is_Some (lut !! KStr id).

(** The pseudonymous id the answer gives for the author of the comment. *)
Definition pseudonym (lut : gmap pykey json) (comment : gmap string json)
    : option json :=
  id ← author_id comment; lut !! KStr id.

(** The store after the comments at [raw_comments] have been rewritten. *)
Definition rewrite_all (raw_comments : list loc)
    (h : gmap loc (gmap string json)) : gmap loc (gmap string json) :=
  fold_left (fun h c => match h !! c with
                        | Some comment => <[c := rewritten comment]> h
                        | None => h
                        end) raw_comments h.

(** The traced record of a comment, [n] clock readings into the run. *)
Definition traced_of (user dataset_name : string) (lut : gmap pykey json)
    (comment : gmap string json) (n : nat) : TracedData :=
  {| td_data :=
       add_items dataset_name (map_to_list (rewritten comment))
         {[ "avf_facebook_id" := default JNull (pseudonym lut comment) ]};
     td_metadata := {| md_user := user;
                       md_source := get_call_location;
                       md_timestamp := utc_now n |} |}.

End CommentShapes.

(** Whether a string has a full stop in it. *)
Fixpoint has_dot (s : string) : bool :=
  match s with
  | EmptyString => false
  | String c s' => bool_decide (c = "."%char) || has_dot s'
  end.

(** ** Mock networks *)
Module Mock.

Definition client : FacebookClient := {| _access_token := "token" |}.

Definition item (id : string) : json := JObj {[ "id" := JStr id ]}.

Definition respond (j : json) : outcome Response :=
  Ok {| Response_json := Ok j |}.

Definition page (d : list json) (paging : option (gmap string json))
    : json :=
  JObj (match paging with
        | Some pg => <["paging" := JObj pg]> {[ "data" := JArr d ]}
        | None => {[ "data" := JArr d ]}
        end).

Definition error_body : gmap string json :=
  {[ "error" := JObj {[ "message" := JStr "Invalid OAuth access token." ]} ]}.

Definition first_url : string := posts_url "1234".
Definition url2 : string :=
  "https://graph.facebook.com/v8.0/1234/published_posts?after=A".
Definition url3 : string :=
  "https://graph.facebook.com/v8.0/1234/published_posts?after=B".

Definition page1 : list json := [item "p1"; item "p2"].
Definition page2 : list json := [item "p3"].
Definition page3 : list json := [item "p4"; item "p5"].

(** Three pages, linked by their cursors. *)
Definition three_pages : network := fun url _ =>
  if String.eqb url first_url
  then respond (page page1 (Some {[ "next" := JStr url2 ]}))
  else if String.eqb url url2
  then respond (page page2 (Some (<["previous" := JStr first_url]>
                                    {[ "next" := JStr url3 ]})))
  else if String.eqb url url3
  then respond (page page3 (Some {[ "previous" := JStr url2 ]}))
  else respond (JObj error_body).

(** The second page has its records but no ["paging"] field. *)
Definition second_page_bare : network := fun url _ =>
  if String.eqb url first_url
  then respond (page page1 (Some {[ "next" := JStr url2 ]}))
  else if String.eqb url url2
  then respond (page page2 None)
  else respond (JObj error_body).

(** The first page has its records but no ["paging"] field. *)
Definition first_page_bare : network := fun url _ =>
  if String.eqb url first_url
  then respond (page page1 None)
  else respond (JObj error_body).

(** The second page is an error payload. *)
Definition second_page_error : network := fun url _ =>
  if String.eqb url first_url
  then respond (page page1 (Some {[ "next" := JStr url2 ]}))
  else respond (JObj error_body).

(** Every request is answered by an error payload. *)
Definition all_errors : network := fun _ _ => respond (JObj error_body).

Definition metric (name : string) (values : list Z) : json :=
  JObj (<["values" := JArr ((fun z => JObj {[ "value" := JNum z ]}) <$> values)]>
          {[ "name" := JStr name ]}).

(** Insights in which one metric has two values. *)
Definition two_values : list json :=
  [metric "post_impressions" [10%Z]; metric "post_clicks" [1%Z; 2%Z]].

Definition insights_two_values : network := fun _ _ =>
  respond (JObj {[ "data" := JArr two_values ]}).

(** Insights in which every metric has one value. *)
Definition one_value_each : list json :=
  [metric "post_impressions" [10%Z]; metric "post_clicks" [3%Z]].

Definition insights_one_value_each : network := fun _ _ =>
  respond (JObj {[ "data" := JArr one_value_each ]}).

(** Comments as the Graph API serves them. *)
Definition comment (id author created message : string)
    : gmap string json :=
  <["from" := JObj {[ "id" := JStr author ]}]>
    (<["created_time" := JStr created]>
       (<["message" := JStr message]> {[ "id" := JStr id ]})).

Definition comment1 : gmap string json :=
  comment "c1" "user-1" "2020-08-24T10:30:00+0000" "Hello".
Definition comment2 : gmap string json :=
  comment "c2" "user-2" "2020-08-24T11:45:10+0000" "Asante".
(** A timestamp three hours east of UTC. *)
Definition comment_east : gmap string json :=
  comment "c3" "user-1" "2020-08-24T13:30:00+0300" "Habari".

Definition uuids : gmap pykey json :=
  <[KStr "user-2" := JStr "avf-facebook-uuid-2"]>
    {[ KStr "user-1" := JStr "avf-facebook-uuid-1" ]}.

(** A table that knows both authors, one that knows only the first, and
    one that fails. *)
Definition table : UuidTable := {| data_to_uuid_batch := fun _ => Ok uuids |}.
Definition table_partial : UuidTable :=
  {| data_to_uuid_batch := fun _ =>
       Ok {[ KStr "user-1" := JStr "avf-facebook-uuid-1" ]} |}.
Definition table_down : UuidTable :=
  {| data_to_uuid_batch := fun _ => Raise (LibraryError "unavailable") |}.

Definition dates : DateLib := PyDates.date_lib 0.
Definition core : CoreData :=
  PyDates.core_data "facebook_utils.py:54:convert_facebook_comments_to_traced_data"
    (fun _ => "2020-09-01T12:00:00.000000+00:00").

(** A store with two comments, and one whose second comment carries the
    eastern timestamp. *)
Definition two_comments : world :=
  {| trace := []; heap := <[1 := comment2]> {[ 0 := comment1 ]};
     clock_reads := 0 |}.
Definition east_second : world :=
  {| trace := []; heap := <[1 := comment_east]> {[ 0 := comment1 ]};
     clock_reads := 0 |}.

Definition start : world :=
  {| trace := []; heap := ∅; clock_reads := 0 |}.

End Mock.

(** ** What a run may add to the trace *)

(** A computation adds to the trace only events that satisfy [P]. *)
Definition emits {A : Type} (P : event -> bool) (m : M A) : Prop :=
  forall w, ∃ rest, trace (m w).2 = (trace w ++ rest)%list
                    ∧ forall e, e ∈ rest -> P e = true.

(** The events of the paging loop: a request for a cursor, without
    parameters, and the error line for a response without ["data"]. *)
Definition follow_up (e : event) : bool :=
  match e with
  | EvGet _ None => true
  | EvLog ERROR _ (Some _) => true
  | _ => false
  end.


Definition is_request (e : event) : bool :=
  match e with
  | EvGet _ _ => true
  | _ => false
  end.

(** A page that leads on: records under ["data"] and, under ["paging"], a
    ["next"] cursor that is the URL [next]. *)
Definition leads_on (net : network) (url next : string) : Prop :=
  ∃ r m d pg,
    net url None = Ok r
    ∧ Response_json r = Ok (JObj m)
    ∧ m !! "data" = Some (JArr d)
    ∧ m !! "paging" = Some (JObj pg)
    ∧ pg !! "next" = Some (JStr next).

(** A set of URLs the cursors never leave. *)
Definition closed_under_next (net : network) (U : string -> Prop) : Prop :=
  forall url, U url -> ∃ next, leads_on net url next ∧ U next.

(** The cursor requests of a chain that ends without a further cursor:
    the URLs requested, in order. *)
Inductive follows (net : network) : json -> list string -> list (list json) -> Prop :=
| follows_end : follows net JNull [] []
| follows_page (url : string) (r : Response) (j : json) (d : list json)
    (next : json) (urls : list string) (ds : list (list json)) :
    net url None = Ok r ->
    Response_json r = Ok j ->
    page_of j d next ->
    follows net next urls ds ->
    follows net (JStr url) (url :: urls) (d :: ds).

(** Whether a character occurs in a string. *)
Fixpoint has_char (c : ascii) (s : string) : bool :=
  match s with
  | EmptyString => false
  | String c' s' => bool_decide (c' = c) || has_char c s'
  end.

(** A cursor that points back to the page it came with. *)
Module Loop.

Definition url : string :=
  "https://graph.facebook.com/v8.0/1234/published_posts?after=A".

Definition net : network := fun _ _ =>
  Mock.respond (Mock.page Mock.page1 (Some {[ "next" := JStr url ]})).

End Loop.

(** Further sample data. *)
Module Fixtures.


(** A post as the Graph API serves one without attachments: the field is
    left out. *)
Definition text_post : json :=
  JObj (<["message" := JStr "Habari"]> {[ "id" := JStr "1234_1" ]}).

(** A metric with two values and no name. *)
Definition nameless : json :=
  JObj {[ "values" := JArr [JObj {[ "value" := JNum 1 ]};
                            JObj {[ "value" := JNum 2 ]}] ]}.

Definition insights_nameless : network := fun _ _ =>
  Mock.respond (JObj {[ "data" := JArr [Mock.metric "post_impressions" [10%Z];
                                        nameless] ]}).

(** A store whose second comment carries the eastern timestamp, with a
    comment after it. *)
Definition east_middle : world :=
  {| trace := [];
     heap := <[2 := Mock.comment2]>
               (<[1 := Mock.comment_east]> {[ 0 := Mock.comment1 ]});
     clock_reads := 0 |}.

(** A comment without its author, as served to a client that may not see
    who wrote it. *)
Definition anonymous : gmap string json :=
  <["created_time" := JStr "2020-08-24T12:00:00+0000"]>
    (<["message" := JStr "Jambo"]> {[ "id" := JStr "c4" ]}).

Definition anonymous_second : world :=
  {| trace := []; heap := <[1 := anonymous]> {[ 0 := Mock.comment1 ]};
     clock_reads := 0 |}.

End Fixtures.

(** * Theorems *)

Local Open Scope list_scope.
Local Open Scope nat_scope.

(** Membership in a literal list, as a disjunction of equalities. *)
Ltac unfold_elem_of :=
  repeat match goal with
    | H : context [_ ∈ _ :: _] |- _ => rewrite elem_of_cons in H
    | H : context [_ ∈ []] |- _ => rewrite elem_of_nil in H
    | |- context [_ ∈ _ :: _] => rewrite elem_of_cons
    | |- context [_ ∈ []] => rewrite elem_of_nil
    end.

(** ** Running a computation *)

Lemma bind_run {A B : Type} (m : M A) (f : A -> M B) (w : world) :
  (m ≫= f) w =
    match m w with
    | (Ok a, w') => f a w'
    | (Raise e, w') => (Raise e, w')
    | (Exit c, w') => (Exit c, w')
    | (OutOfFuel, w') => (OutOfFuel, w')
    end.
Proof. reflexivity. Qed.

Lemma bind_ok {A B : Type} (m : M A) (f : A -> M B) (w w' : world) (a : A) :
  m w = (Ok a, w') -> (m ≫= f) w = f a w'.
Proof. intros Hm. rewrite bind_run, Hm. reflexivity. Qed.

Lemma lift_run {A : Type} (o : outcome A) (w : world) : lift o w = (o, w).
Proof. reflexivity. Qed.

Lemma ret_run {A : Type} (a : A) (w : world) : (mret a : M A) w = (Ok a, w).
Proof. reflexivity. Qed.

Lemma emit_run (e : event) (w : world) : emit e w = (Ok tt, record e w).
Proof. reflexivity. Qed.

Lemma requests_get_run (net : network) (url : string)
    (params : option (gmap string pval)) (w : world) :
  requests_get net url params w = (net url params, record (EvGet url params) w).
Proof. reflexivity. Qed.

(** Step through a run: binds, lifted outcomes, events. *)
Ltac run_step :=
  repeat (progress
    (rewrite ?bind_run, ?lift_run, ?ret_run, ?emit_run, ?requests_get_run;
     simpl)).
(** ** clean_post_type *)

Lemma clean_step_typed (pt : option string) (a : json) (t : string) :
  attachment_type a = Some t ->
  clean_step pt a =
    match kind_of t with
    | Some k => if type_in pt k then Ok (Some k) else Raise AssertionError
    | None => Raise AssertionError
    end.
Proof.
  intros Ha. destruct a as [| | | |l|m]; try discriminate.
  simpl in Ha. unfold clean_step, kind_of. simpl.
  destruct (m !! "type") as [[| | |s| |]|] eqn:E; try discriminate.
  injection Ha as ->. simpl.
  unfold py_eq_str, json_is_str.
  repeat case_bool_decide; simpl; try reflexivity;
    try (destruct (type_in pt _); reflexivity).
  all: exfalso; unfold_elem_of; intuition congruence.
Qed.

Lemma clean_post_type_loop (post : json) (l : list json) :
  attachments_of post = Some l ->
  clean_post_type post = for_each clean_step None l.
Proof.
  unfold attachments_of, clean_post_type. intros Hl.
  destruct post as [| | | | |m]; try discriminate. simpl.
  destruct (m !! "attachments") as [[| | | | |am]|]; try discriminate. simpl.
  destruct (am !! "data") as [[| | | |l'|]|]; try discriminate.
  injection Hl as ->. reflexivity.
Qed.

Lemma kind_at_photo (a : json) : is_photo a = true -> kind_at a = Some "photo".
Proof.
  unfold is_photo, kind_at. intros Hp%bool_decide_eq_true. rewrite Hp.
  reflexivity.
Qed.

Lemma kind_at_video (a : json) : is_video a = true -> kind_at a = Some "video".
Proof.
  unfold is_video, kind_at. intros [Hv|Hv]%bool_decide_eq_true; rewrite Hv;
    reflexivity.
Qed.

Lemma clean_step_kind (pt : option string) (a : json) (k : string) :
  kind_at a = Some k -> type_in pt k = true ->
  clean_step pt a = Ok (Some k).
Proof.
  unfold kind_at. intros Hk Hpt.
  destruct (attachment_type a) as [t|] eqn:Ht; [|discriminate].
  simpl in Hk. rewrite (clean_step_typed pt a t Ht), Hk, Hpt. reflexivity.
Qed.

Lemma type_in_same (k : string) : type_in (Some k) k = true.
Proof. unfold type_in. apply bool_decide_eq_true. reflexivity. Qed.

(** A run of attachments of one kind leaves that kind. *)
Lemma clean_loop_uniform (k : string) (l : list json) :
  Forall (fun a => kind_at a = Some k) l ->
  forall pt, type_in pt k = true ->
  for_each clean_step pt l = Ok (match l with [] => pt | _ => Some k end).
Proof.
  induction 1 as [|a l Ha Hl IH]; intros pt Hpt; [reflexivity|].
  simpl. rewrite (clean_step_kind pt a k Ha Hpt). simpl.
  rewrite (IH (Some k) (type_in_same k)). destruct l; reflexivity.
Qed.

(** With typed attachments the loop ends in a type or in the assertion. *)
Lemma clean_loop_total (l : list json) :
  Forall (fun a => has_type a = true) l ->
  forall pt, for_each clean_step pt l = Raise AssertionError
             ∨ ∃ r, for_each clean_step pt l = Ok r.
Proof.
  induction 1 as [|a l Ha Hl IH]; intros pt; [right; eexists; reflexivity|].
  apply bool_decide_eq_true in Ha as [t Ht].
  simpl. rewrite (clean_step_typed pt a t Ht).
  destruct (kind_of t) as [k|]; [|left; reflexivity].
  destruct (type_in pt k); [|left; reflexivity].
  simpl. apply IH.
Qed.

(** When the loop returns, every attachment had the kind returned. *)
Lemma clean_loop_ok (l : list json) :
  Forall (fun a => has_type a = true) l ->
  forall pt r, for_each clean_step pt l = Ok r ->
  Forall (fun a => is_Some r ∧ kind_at a = r) l
  ∧ (forall k, pt = Some k -> r = Some k).
Proof.
  induction 1 as [|a l Ha Hl IH]; intros pt r Hr.
  - simpl in Hr. injection Hr as <-. split; [constructor|auto].
  - apply bool_decide_eq_true in Ha as [t Ht].
    simpl in Hr. rewrite (clean_step_typed pt a t Ht) in Hr.
    destruct (kind_of t) as [k|] eqn:Hk; [|discriminate].
    destruct (type_in pt k) eqn:Hpt; [|discriminate].
    simpl in Hr. destruct (IH _ _ Hr) as [Hall Hsame].
    specialize (Hsame k eq_refl). subst r. split.
    + constructor; [|exact Hall]. split; [eexists; reflexivity|].
      unfold kind_at. rewrite Ht. exact Hk.
    + intros k' ->. unfold type_in in Hpt.
      apply bool_decide_eq_true in Hpt. congruence.
Qed.




(** C7. A post that mixes photo and video attachments, or has an attachment
    whose type is none of "video_inline", "video_direct_response" and
    "photo", fails the assertion; no type is returned. The attachments are
    objects with a string under "type". *)
Theorem clean_post_type_rejects (post : json) (l : list json) :
  attachments_of post = Some l ->
  Forall (fun a => has_type a = true) l ->
  (∃ a b, a ∈ l ∧ b ∈ l ∧ is_photo a = true ∧ is_video b = true)
  ∨ (∃ a t, a ∈ l ∧ attachment_type a = Some t
            ∧ t ∉ ["video_inline"; "video_direct_response"; "photo"]) ->
  clean_post_type post = Raise AssertionError.
Proof.
  intros Hpost Htyped Hbad. rewrite (clean_post_type_loop post l Hpost).
  destruct (clean_loop_total l Htyped None) as [Hfail|[r Hr]]; [exact Hfail|].
  exfalso. destruct (clean_loop_ok l Htyped None r Hr) as [Hall _].
  rewrite Forall_forall in Hall.
  destruct Hbad as [(a & b & Ha & Hb & Hpa & Hvb)|(a & t & Ha & Ht & Hnot)].
  - apply Hall in Ha as [_ Ha], Hb as [_ Hb].
    rewrite (kind_at_photo a Hpa) in Ha. rewrite (kind_at_video b Hvb) in Hb.
    congruence.
  - destruct (Hall a Ha) as [[k ->] Hk]. unfold kind_at in Hk. rewrite Ht in Hk.
    simpl in Hk. unfold kind_of in Hk. unfold_elem_of.
    repeat case_bool_decide; try discriminate; tauto.
Qed.

Lemma clean_post_type_rejects_witness :
  clean_post_type (Samples.post_with Samples.mixed) = Raise AssertionError
  ∧ clean_post_type (Samples.post_with Samples.unknown) = Raise AssertionError.
Proof.
  split.
  - apply (clean_post_type_rejects (Samples.post_with Samples.mixed)
             Samples.mixed); [reflexivity|repeat constructor|].
    left. exists (Samples.attachment "photo"), (Samples.attachment "video_inline").
    repeat split; unfold Samples.mixed; unfold_elem_of; tauto.
  - apply (clean_post_type_rejects (Samples.post_with Samples.unknown)
             Samples.unknown); [reflexivity|repeat constructor|].
    right. exists (Samples.attachment "share"), "share".
    repeat split; unfold Samples.unknown; unfold_elem_of;
      [tauto|intuition discriminate].
Defined.

(** ** Paged requests *)

Lemma check_data_ok (r : Response) (m : gmap string json) (w : world) :
  Response_json r = Ok (JObj m) -> is_Some (m !! "data") ->
  check_data r w = (Ok tt, w).
Proof.
  intros Hj Hd. unfold check_data, json_of. rewrite Hj. run_step.
  rewrite bool_decide_eq_true_2 by exact Hd. reflexivity.
Qed.

Lemma check_data_missing (r : Response) (m : gmap string json) (w : world) :
  Response_json r = Ok (JObj m) -> m !! "data" = None ->
  check_data r w = (Exit 1, record (EvLog ERROR no_data_msg (Some (JObj m))) w).
Proof.
  intros Hj Hd. unfold check_data, json_of. rewrite Hj. run_step.
  rewrite bool_decide_eq_false_2 by (rewrite Hd; apply is_Some_None).
  reflexivity.
Qed.

(** Following a chain appends its pages, in order, to the records so far,
    or stops where the chain breaks. *)
Lemma paged_loop_chain (net : network) (next : json) (ds : list (list json))
    (e : ending) :
  chain net next ds e ->
  forall (fuel : nat) (l : list json) (w : world),
    length ds ≤ fuel ->
    ∃ w', paged_loop net (S fuel) (JArr l) next w
          = (paged_outcome (l :: ds) e, w')
          ∧ left_behind e w w'.
Proof.
  induction 1 as [|url r m Hnet Hj Hd|url r m d Hnet Hj Hd Hpg
                  |url r j d next ds e Hnet Hj Hpage Hchain IH];
    intros fuel l w Hfuel.
  - exists w. simpl. rewrite app_nil_r. repeat split.
  - eexists. simpl. run_step. rewrite Hnet, bind_run.
    rewrite (check_data_missing r m _ Hj Hd). split; [reflexivity|].
    repeat split. exists (trace w), url, None. simpl.
    rewrite <- app_assoc. reflexivity.
  - eexists. simpl. run_step. rewrite Hnet, bind_run.
    rewrite (check_data_ok r m _ Hj) by (rewrite Hd; eexists; reflexivity).
    unfold json_of. rewrite Hj. run_step. rewrite Hd. run_step.
    rewrite Hpg. repeat split.
  - destruct fuel as [|fuel]; [simpl in Hfuel; lia|].
    destruct Hpage as (m & pg & -> & Hd & Hpg & Hnext).
    destruct (IH fuel (l ++ d) (record (EvGet url None) w))
      as (w' & Hw' & Hheap & Hclock & Htrace); [simpl in Hfuel; lia|].
    exists w'. split; [|repeat split; assumption].
    remember (S fuel) as fuel'. simpl. run_step. rewrite Hnet, bind_run.
    rewrite (check_data_ok r m _ Hj) by (rewrite Hd; eexists; reflexivity).
    unfold json_of. rewrite Hj. run_step. rewrite Hd. run_step.
    rewrite Hpg. run_step. rewrite Hnext, Hw'.
    destruct e; simpl; rewrite <- ?app_assoc; reflexivity.
Qed.

(** The paged request on a served chain. *)
Lemma paged_get_serves (net : network) (self : FacebookClient)
    (endpoint : string) (params : option (gmap string pval))
    (pages : list (list json)) (e : ending) (fuel : nat) (w : world) :
  serves net (_BASE_URL ++ endpoint)%string
    (with_token self (default ∅ params)) pages e ->
  length pages ≤ S fuel ->
  ∃ w', _make_paged_get_request net (S fuel) self endpoint params w
        = (paged_outcome pages e, w')
        ∧ left_behind e w w'.
Proof.
  intros [(r & m & -> & -> & Hnet & Hj & Hd)
         |(r & j & d & next & ds & -> & Hnet & Hj & Hfirst & Hchain)] Hfuel;
    unfold _make_paged_get_request, with_token in *;
    rewrite bind_run, requests_get_run, Hnet; rewrite bind_run.
  - rewrite (check_data_missing r m _ Hj Hd). eexists. split; [reflexivity|].
    repeat split. eexists (trace w), _, _. simpl.
    rewrite <- app_assoc. reflexivity.
  - destruct Hfirst as (m & -> & Hd & Hpaging).
    rewrite (check_data_ok r m _ Hj) by (rewrite Hd; eexists; reflexivity).
    unfold json_of. rewrite Hj. run_step. rewrite Hd.
    remember (S fuel) as fuel'. run_step.
    assert (Hn : py_get (default (JObj ∅) (m !! "paging")) "next" JNull
                 = Ok next).
    { destruct Hpaging as [[-> ->]|(pg & -> & <-)]; reflexivity. }
    rewrite Hn. subst fuel'.
    destruct (paged_loop_chain net next ds e Hchain fuel d
                (record (EvGet (_BASE_URL ++ endpoint)%string
                   (Some (<["access_token" := PStr (_access_token self)]>
                            (default ∅ params)))) w))
      as (w' & Hw' & Hheap & Hclock & Htrace); [simpl in Hfuel; lia|].
    exists w'. split; [exact Hw'|]. repeat split; assumption.
Qed.

Lemma left_behind_record (e : ending) (ev : event) (w w' : world) :
  left_behind e (record ev w) w' -> left_behind e w w'.
Proof. intros (Hh & Hc & Ht). repeat split; assumption. Qed.

Lemma facebook_time_opt_ok `{DL : DateLib} (date : option datetime)
    (t : option string) (params : gmap string pval) (k : string) (w : world) :
  facebook_time_opt date = Ok t ->
  (match date with
   | Some d => s ← lift (_date_to_facebook_time d);
               mret (<[k := PStr s]> params)
   | None => mret params
   end : M _) w = (Ok (with_param k t params), w).
Proof.
  destruct date as [d|]; simpl; [|intros [= <-]; reflexivity].
  run_step. destruct (_date_to_facebook_time d); simpl; try discriminate.
  intros [= <-]. reflexivity.
Qed.

Lemma get_posts_serves (net : network) `{DL : DateLib} (self : FacebookClient)
    (page_id : string) (fields : list string)
    (created_after created_before : option datetime)
    (since until : option string)
    (pages : list (list json)) (e : ending) (fuel : nat) (w : world) :
  facebook_time_opt created_after = Ok since ->
  facebook_time_opt created_before = Ok until ->
  serves net (posts_url page_id) (posts_params self fields since until) pages e ->
  length pages ≤ S fuel ->
  ∃ w', get_posts_published_by_page net (S fuel) self page_id fields
          created_after created_before w
        = (paged_outcome pages e, w')
        ∧ left_behind e w w'.
Proof.
  intros Hsince Huntil Hserves Hfuel.
  unfold get_posts_published_by_page.
  rewrite bind_run. unfold log_debug at 1. rewrite emit_run.
  rewrite bind_run, (facebook_time_opt_ok _ _ _ _ _ Hsince).
  rewrite bind_run, (facebook_time_opt_ok _ _ _ _ _ Huntil).
  rewrite bind_run.
  match goal with
  | |- context [_make_paged_get_request _ _ _ _ _ ?w0] =>
      destruct (paged_get_serves net self
                  ("/" ++ page_id ++ "/published_posts")%string
                  (Some (with_param "until" until
                           (with_param "since" since
                              (<["limit" := PInt _MAX_RESULTS_PER_PAGE]>
                                 {[ "fields" := PStr (join "," fields) ]}))))
                  pages e fuel w0 Hserves Hfuel) as (w' & Hw' & Hleft)
  end.
  rewrite Hw'. apply left_behind_record in Hleft.
  destruct e; simpl; try (exists w'; split; [reflexivity|assumption]).
  eexists. split; [reflexivity|].
  destruct Hleft as (Hh & Hc & _). repeat split; assumption.
Qed.

Lemma get_comments_serves (net : network) (self : FacebookClient)
    (post_id : string) (fields : list string) (file : option nat)
    (pages : list (list json)) (e : ending) (fuel : nat) (w : world) :
  serves net (comments_url post_id) (comments_params self fields) pages e ->
  length pages ≤ S fuel ->
  ∃ w', get_all_comments_on_post net (S fuel) self post_id fields file w
        = (paged_outcome pages e, w')
        ∧ left_behind e w w'.
Proof.
  intros Hserves Hfuel.
  unfold get_all_comments_on_post.
  rewrite bind_run. unfold log_info at 1. rewrite emit_run.
  rewrite bind_run.
  match goal with
  | |- context [_make_paged_get_request _ _ _ _ ?p ?w0] =>
      destruct (paged_get_serves net self
                  ("/" ++ post_id ++ "/comments")%string p
                  pages e fuel w0 Hserves Hfuel) as (w' & Hw' & Hleft)
  end.
  rewrite Hw'. apply left_behind_record in Hleft.
  destruct e; simpl; try (exists w'; split; [reflexivity|assumption]).
  destruct Hleft as (Hh & Hc & _).
  destruct file; eexists; (split; [reflexivity|]); repeat split; assumption.
Qed.

(** C1. On a chain of pages that ends with a page without a further
    cursor, the paged request returns the pages' records concatenated in
    page order, and so do the posts of a page and the comments on a post;
    every page after the first carries its "paging" object. Fuel that
    covers the number of pages is enough for the loop. *)
Theorem paged_requests_concatenate (net : network) `{DL : DateLib}
    (self : FacebookClient) (pages : list (list json)) (fuel : nat)
    (w : world) :
  length pages ≤ S fuel ->
  (forall endpoint params,
     serves net (_BASE_URL ++ endpoint)%string
       (with_token self (default ∅ params)) pages Finished ->
     ∃ w', _make_paged_get_request net (S fuel) self endpoint params w
           = (Ok (JArr (concat pages)), w'))
  ∧ (forall page_id fields created_after created_before since until,
       facebook_time_opt created_after = Ok since ->
       facebook_time_opt created_before = Ok until ->
       serves net (posts_url page_id)
         (posts_params self fields since until) pages Finished ->
       ∃ w', get_posts_published_by_page net (S fuel) self page_id fields
               created_after created_before w
             = (Ok (JArr (concat pages)), w'))
  ∧ (forall post_id fields file,
       serves net (comments_url post_id)
         (comments_params self fields) pages Finished ->
       ∃ w', get_all_comments_on_post net (S fuel) self post_id fields file w
             = (Ok (JArr (concat pages)), w')).
Proof.
  intros Hfuel. split; [|split].
  - intros endpoint params Hserves.
    destruct (paged_get_serves net self endpoint params pages Finished
                fuel w Hserves Hfuel) as (w' & Hw' & _).
    exists w'. exact Hw'.
  - intros page_id fields created_after created_before since until
      Hsince Huntil Hserves.
    destruct (get_posts_serves net self page_id fields created_after
                created_before since until pages Finished fuel w
                Hsince Huntil Hserves Hfuel) as (w' & Hw' & _).
    exists w'. exact Hw'.
  - intros post_id fields file Hserves.
    destruct (get_comments_serves net self post_id fields file pages
                Finished fuel w Hserves Hfuel) as (w' & Hw' & _).
    exists w'. exact Hw'.
Qed.

Lemma three_pages_served (params : gmap string pval) :
  serves Mock.three_pages Mock.first_url params
    [Mock.page1; Mock.page2; Mock.page3] Finished.
Proof.
  right. eexists _, _, Mock.page1, (JStr Mock.url2), _.
  split; [reflexivity|]. split; [reflexivity|]. split; [reflexivity|].
  split.
  - eexists. split; [reflexivity|]. split; [reflexivity|].
    right. eexists. split; reflexivity.
  - eapply (chain_page _ Mock.url2 _ _ Mock.page2 (JStr Mock.url3));
      [reflexivity|reflexivity| |].
    { eexists _, _. repeat split; reflexivity. }
    eapply (chain_page _ Mock.url3 _ _ Mock.page3 JNull);
      [reflexivity|reflexivity| |constructor].
    eexists _, _. repeat split; reflexivity.
Qed.

Lemma paged_requests_concatenate_witness :
  ∃ w', get_posts_published_by_page Mock.three_pages (DL := PyDates.date_lib 0)
          3 Mock.client "1234" ["message"] None None Mock.start
        = (Ok (JArr [Mock.item "p1"; Mock.item "p2"; Mock.item "p3";
                     Mock.item "p4"; Mock.item "p5"]), w').
Proof.
  destruct (paged_requests_concatenate Mock.three_pages
              (DL := PyDates.date_lib 0) Mock.client
              [Mock.page1; Mock.page2; Mock.page3] 2 Mock.start)
    as (_ & Hposts & _); [simpl; lia|].
  apply (Hposts "1234" ["message"] None None None None);
    [reflexivity|reflexivity|apply three_pages_served].
Defined.

(** C10. When a page after the first has its records under "data" but no
    "paging" field, the paged request raises KeyError instead of returning
    the records gathered so far; when the first page is the one without
    "paging", the request returns that page's records. *)
Theorem paging_missing_after_first (net : network) (self : FacebookClient)
    (endpoint : string) (params : option (gmap string pval))
    (fuel : nat) (w : world) :
  (forall pages,
     length pages ≤ S fuel ->
     serves net (_BASE_URL ++ endpoint)%string
       (with_token self (default ∅ params)) pages NoPaging ->
     ∃ w', _make_paged_get_request net (S fuel) self endpoint params w
           = (Raise KeyError, w'))
  ∧ (forall r m d,
       net (_BASE_URL ++ endpoint)%string
         (Some (with_token self (default ∅ params))) = Ok r ->
       Response_json r = Ok (JObj m) ->
       m !! "data" = Some (JArr d) ->
       m !! "paging" = None ->
       ∃ w', _make_paged_get_request net (S fuel) self endpoint params w
             = (Ok (JArr d), w')).
Proof.
  split.
  - intros pages Hfuel Hserves.
    destruct (paged_get_serves net self endpoint params pages NoPaging
                fuel w Hserves Hfuel) as (w' & Hw' & _).
    exists w'. exact Hw'.
  - intros r m d Hnet Hj Hd Hpg.
    destruct (paged_get_serves net self endpoint params [d] Finished
                fuel w) as (w' & Hw' & _); [|simpl; lia|].
    + right. exists r, (JObj m), d, JNull, []. repeat split; try assumption.
      * exists m. repeat split; try assumption. left. split; [assumption|reflexivity].
      * constructor.
    + exists w'. rewrite Hw'. simpl. rewrite app_nil_r. reflexivity.
Qed.

Lemma paging_missing_after_first_witness :
  (∃ w', _make_paged_get_request Mock.second_page_bare 2 Mock.client
           "/1234/published_posts" None Mock.start = (Raise KeyError, w'))
  ∧ (∃ w', _make_paged_get_request Mock.first_page_bare 2 Mock.client
             "/1234/published_posts" None Mock.start
           = (Ok (JArr Mock.page1), w')).
Proof.
  split.
  - apply (proj1 (paging_missing_after_first Mock.second_page_bare
                    Mock.client "/1234/published_posts" None 1 Mock.start)
             [Mock.page1; Mock.page2]); [simpl; lia|].
    right. eexists _, _, Mock.page1, (JStr Mock.url2), _.
    split; [reflexivity|]. split; [reflexivity|]. split; [reflexivity|].
    split.
    + eexists. split; [reflexivity|]. split; [reflexivity|].
      right. eexists. split; reflexivity.
    + eapply (chain_no_paging _ Mock.url2); reflexivity.
  - eapply (proj2 (paging_missing_after_first Mock.first_page_bare
                     Mock.client "/1234/published_posts" None 1 Mock.start));
      reflexivity.
Defined.

(** C2, as the code has it. A response without a "data" field on the paged
    request path, on the first page or on a later one, is logged as an
    error and ends the process with exit code 1: nothing is raised, and
    the error line follows the request that fetched the response as the
    last thing done. This holds for the paged request and for the posts of
    a page and the comments on a post, which are built on it. *)
Theorem paged_missing_data_exits (net : network) `{DL : DateLib}
    (self : FacebookClient) (pages : list (list json))
    (body : gmap string json) (fuel : nat) (w : world) :
  length pages ≤ S fuel ->
  (forall endpoint params,
     serves net (_BASE_URL ++ endpoint)%string
       (with_token self (default ∅ params)) pages (NoData body) ->
     ∃ w', _make_paged_get_request net (S fuel) self endpoint params w
           = (Exit 1, w')
           ∧ left_behind (NoData body) w w')
  ∧ (forall page_id fields created_after created_before since until,
       facebook_time_opt created_after = Ok since ->
       facebook_time_opt created_before = Ok until ->
       serves net (posts_url page_id)
         (posts_params self fields since until) pages (NoData body) ->
       ∃ w', get_posts_published_by_page net (S fuel) self page_id fields
               created_after created_before w
             = (Exit 1, w')
             ∧ left_behind (NoData body) w w')
  ∧ (forall post_id fields file,
       serves net (comments_url post_id)
         (comments_params self fields) pages (NoData body) ->
       ∃ w', get_all_comments_on_post net (S fuel) self post_id fields file w
             = (Exit 1, w')
             ∧ left_behind (NoData body) w w').
Proof.
  intros Hfuel. split; [|split].
  - intros endpoint params Hserves.
    apply (paged_get_serves net self endpoint params pages (NoData body)
             fuel w Hserves Hfuel).
  - intros page_id fields created_after created_before since until
      Hsince Huntil Hserves.
    apply (get_posts_serves net self page_id fields created_after
             created_before since until pages (NoData body) fuel w
             Hsince Huntil Hserves Hfuel).
  - intros post_id fields file Hserves.
    apply (get_comments_serves net self post_id fields file pages
             (NoData body) fuel w Hserves Hfuel).
Qed.

Lemma paged_missing_data_exits_witness :
  (∃ w', _make_paged_get_request Mock.all_errors 1 Mock.client
           "/1234/published_posts" None Mock.start = (Exit 1, w')
         ∧ left_behind (NoData Mock.error_body) Mock.start w')
  ∧ (∃ w', _make_paged_get_request Mock.second_page_error 2 Mock.client
             "/1234/published_posts" None Mock.start = (Exit 1, w')
           ∧ left_behind (NoData Mock.error_body) Mock.start w').
Proof.
  split.
  - apply (proj1 (paged_missing_data_exits Mock.all_errors
                    (DL := PyDates.date_lib 0) Mock.client []
                    Mock.error_body 0 Mock.start ltac:(simpl; lia))).
    left. eexists _, _. repeat split; reflexivity.
  - apply (proj1 (paged_missing_data_exits Mock.second_page_error
                    (DL := PyDates.date_lib 0) Mock.client [Mock.page1]
                    Mock.error_body 1 Mock.start ltac:(simpl; lia))).
    right. eexists _, _, Mock.page1, (JStr Mock.url2), _.
    split; [reflexivity|]. split; [reflexivity|]. split; [reflexivity|].
    split.
    + eexists. split; [reflexivity|]. split; [reflexivity|].
      right. eexists. split; reflexivity.
    + eapply (chain_no_data _ Mock.url2); reflexivity.
Defined.

(** C2 fails for the metrics accessors: on an error payload both raise
    KeyError to the caller; nothing is logged and the process does not
    exit. *)
Lemma metrics_missing_data_raises :
  let sent :=
    EvGet (_BASE_URL ++ "/1234_5678/insights?metric=post_impressions")%string
      (Some {[ "access_token" := PStr "token" ]}) in
  Mock.all_errors (_BASE_URL ++ "/1234_5678/insights?metric=post_impressions")%string
    (Some {[ "access_token" := PStr "token" ]})
  = Mock.respond (JObj Mock.error_body)
  ∧ Mock.error_body !! "data" = None
  ∧ get_raw_metrics_for_post Mock.all_errors Mock.client "1234_5678"
      ["post_impressions"] Mock.start
    = (Raise KeyError, record sent Mock.start)
  ∧ get_metrics_for_post Mock.all_errors Mock.client "1234_5678"
      ["post_impressions"] Mock.start
    = (Raise KeyError, record sent Mock.start)
  ∧ (forall code w',
       get_raw_metrics_for_post Mock.all_errors Mock.client "1234_5678"
         ["post_impressions"] Mock.start ≠ (Exit code, w')).
Proof. repeat split. intros code w'. discriminate. Qed.

(** ** Metrics *)

Lemma metrics_step_ok (cleaned : gmap pykey json) (m : json) :
  metric_ok m ->
  metrics_step cleaned m =
    match metric_pair m with
    | Some (k, v) => Ok (<[k := v]> cleaned)
    | None => Raise AssertionError
    end
  ∧ (is_Some (metric_pair m) ↔ value_count m = 1).
Proof.
  unfold metric_ok, metrics_step, metric_pair, value_count.
  destruct m as [| | | | |o]; simpl;
    try (intros [[n Hn] _]; discriminate).
  intros [[n Hn] Hv].
  destruct (o !! "name") as [[| | |n'| |]|] eqn:En; try discriminate.
  destruct (o !! "values") as [[| | | |l|]|] eqn:Ev; try contradiction.
  simpl. destruct l as [|v [|v' l]]; simpl.
  - split; [reflexivity|]. split; [intros [? [=]]|discriminate].
  - destruct Hv as [x Hx]. destruct v as [| | | | |ov]; try discriminate.
    simpl in Hx. unfold py_getitem, value_of. rewrite Hx. simpl.
    split; [reflexivity|].
    split; [reflexivity|]. intros _. eexists. reflexivity.
  - split; [reflexivity|]. split; [intros [? [=]]|discriminate].
Qed.

(** The loop over metrics that all have one value. *)
Lemma metrics_loop_single (ms : list json) :
  Forall metric_ok ms ->
  Forall (fun m => value_count m = 1) ms ->
  forall cleaned,
    for_each metrics_step cleaned ms
    = Ok (fold_left (fun acc p => <[p.1 := p.2]> acc) (omap metric_pair ms)
            cleaned).
Proof.
  induction 1 as [|m ms Hm Hms IH]; intros Hone cleaned; [reflexivity|].
  apply Forall_cons in Hone as [H1 Hone].
  destruct (metrics_step_ok cleaned m Hm) as [Hstep Hiff].
  apply Hiff in H1 as [[k v] Hp].
  simpl. rewrite Hstep, Hp. simpl. apply IH, Hone.
Qed.

(** The loop stops at the assertion when some metric has not one value. *)
Lemma metrics_loop_fails (ms : list json) :
  Forall metric_ok ms ->
  Exists (fun m => value_count m ≠ 1) ms ->
  forall cleaned, for_each metrics_step cleaned ms = Raise AssertionError.
Proof.
  induction 1 as [|m ms Hm Hms IH]; intros Hex cleaned; [inversion Hex|].
  destruct (metrics_step_ok cleaned m Hm) as [Hstep Hiff].
  simpl. rewrite Hstep.
  destruct (metric_pair m) as [[k v]|] eqn:Hp; [|reflexivity].
  simpl. apply IH. apply Exists_cons in Hex as [Hbad|Hex]; [|exact Hex].
  exfalso. apply Hbad, Hiff. eexists. reflexivity.
Qed.

Lemma fold_insert_list_to_map (l : list (pykey * json)) :
  fold_left (fun acc p => <[p.1 := p.2]> acc) l (∅ : gmap pykey json)
  = list_to_map (reverse l).
Proof.
  induction l as [|[k v] l IH] using rev_ind; [reflexivity|].
  rewrite fold_left_app, reverse_snoc. simpl. rewrite IH. reflexivity.
Qed.

Lemma metric_pair_keys (ms : list json) :
  Forall (fun m => is_Some (metric_pair m)) ms ->
  (omap metric_pair ms).*1 = KStr <$> omap metric_name ms.
Proof.
  induction 1 as [|m ms [[k v] Hp] Hms IH]; [reflexivity|].
  simpl. rewrite Hp. unfold metric_pair in Hp.
  destruct (metric_name m) as [n|]; [|discriminate]. simpl in *.
  f_equal; [|exact IH].
  destruct (metric_values m) as [[|x [|]]|]; try discriminate.
  destruct (value_of x); [|discriminate]. simpl in Hp. congruence.
Qed.

Lemma get_raw_metrics_run (net : network) (self : FacebookClient)
    (post_id : string) (metrics : list string) (r : Response)
    (body : gmap string json) (w : world) :
  net (insights_url post_id metrics) (Some (with_token self ∅)) = Ok r ->
  Response_json r = Ok (JObj body) ->
  get_raw_metrics_for_post net self post_id metrics w
  = (py_getitem (JObj body) "data",
     record (EvGet (insights_url post_id metrics) (Some (with_token self ∅))) w).
Proof.
  intros Hnet Hj. unfold get_raw_metrics_for_post, _make_get_request.
  unfold insights_url, with_token in *. simpl.
  rewrite !bind_run, requests_get_run, Hnet. unfold json_of.
  rewrite lift_run, Hj, lift_run. simpl.
  destruct (body !! "data"); reflexivity.
Qed.

(** C4. The simplified accessor raises an assertion error exactly when
    some returned metric has a number of values other than one, and
    otherwise returns the mapping from each metric's name to its single
    value (a later metric of the same name replaces an earlier one); the
    raw accessor returns the list of metrics as served, whatever the
    number of values. The metrics are objects with a name, a list of
    values and, where the list has one entry, a value in it. *)
Theorem metrics_single_value (net : network) (self : FacebookClient)
    (post_id : string) (metrics : list string) (r : Response)
    (body : gmap string json) (ms : list json) (w : world) :
  net (insights_url post_id metrics) (Some (with_token self ∅)) = Ok r ->
  Response_json r = Ok (JObj body) ->
  body !! "data" = Some (JArr ms) ->
  Forall metric_ok ms ->
  let w1 := record (EvGet (insights_url post_id metrics)
                      (Some (with_token self ∅))) w in
  let cleaned : gmap pykey json := list_to_map (reverse (omap metric_pair ms)) in
  get_raw_metrics_for_post net self post_id metrics w = (Ok (JArr ms), w1)
  ∧ (get_metrics_for_post net self post_id metrics w
       = (Raise AssertionError, w1)
     ↔ Exists (fun m => value_count m ≠ 1) ms)
  ∧ (Forall (fun m => value_count m = 1) ms ->
     get_metrics_for_post net self post_id metrics w = (Ok cleaned, w1)
     ∧ (NoDup (omap metric_name ms) ->
        forall m n v, m ∈ ms -> metric_pair m = Some (KStr n, v) ->
                      cleaned !! KStr n = Some v)).
Proof.
  intros Hnet Hj Hd Hok w1 cleaned.
  pose proof (get_raw_metrics_run net self post_id metrics r body w Hnet Hj)
    as Hraw.
  simpl in Hraw. rewrite Hd in Hraw. fold w1 in Hraw.
  assert (Hrun : get_metrics_for_post net self post_id metrics w
                 = (for_each metrics_step ∅ ms, w1)).
  { unfold get_metrics_for_post. rewrite bind_run, Hraw. reflexivity. }
  assert (Hsingle : Forall (fun m => value_count m = 1) ms ->
                    get_metrics_for_post net self post_id metrics w
                    = (Ok cleaned, w1)).
  { intros Hone. rewrite Hrun, (metrics_loop_single ms Hok Hone).
    rewrite fold_insert_list_to_map. reflexivity. }
  split; [exact Hraw|]. split; [split|].
  - intros Hfail.
    destruct (decide (Exists (fun m => value_count m ≠ 1) ms)) as [|Hno];
      [assumption|].
    exfalso. rewrite Hsingle in Hfail; [discriminate|].
    apply Forall_forall. intros m Hm.
    destruct (decide (value_count m = 1)) as [|Hne]; [assumption|].
    exfalso. apply Hno, Exists_exists. exists m. split; assumption.
  - intros Hex. rewrite Hrun, (metrics_loop_fails ms Hok Hex). reflexivity.
  - intros Hone. split; [exact (Hsingle Hone)|].
    intros Hnodup m n v Hm Hp. unfold cleaned.
    apply elem_of_list_to_map_1.
    + rewrite fmap_reverse, reverse_Permutation, metric_pair_keys.
      * apply NoDup_fmap_2; [|exact Hnodup]. intros x y [= ->]. reflexivity.
      * rewrite Forall_forall in Hok, Hone. apply Forall_forall.
        intros m' Hm'.
        apply (proj2 (metrics_step_ok ∅ m' (Hok m' Hm'))), Hone, Hm'.
    + apply elem_of_reverse, list_elem_of_omap. exists m. split; assumption.
Qed.

Ltac metrics_ok :=
  repeat apply Forall_cons_2; try apply Forall_nil_2;
  (split; [eexists; reflexivity
          |vm_compute; first [exact I | eexists; reflexivity]]).

Lemma metrics_single_value_witness :
  let w1 := record (EvGet (insights_url "1234_5678" ["post_impressions"; "post_clicks"])
                      (Some (with_token Mock.client ∅))) Mock.start in
  (get_raw_metrics_for_post Mock.insights_two_values Mock.client "1234_5678"
     ["post_impressions"; "post_clicks"] Mock.start
   = (Ok (JArr Mock.two_values), w1)
   ∧ get_metrics_for_post Mock.insights_two_values Mock.client "1234_5678"
       ["post_impressions"; "post_clicks"] Mock.start
     = (Raise AssertionError, w1))
  ∧ get_metrics_for_post Mock.insights_one_value_each Mock.client "1234_5678"
      ["post_impressions"; "post_clicks"] Mock.start
    = (Ok (<[KStr "post_clicks" := JNum 3]>
             (<[KStr "post_impressions" := JNum 10]> ∅)), w1).
Proof.
  intros w1. split.
  - destruct (metrics_single_value Mock.insights_two_values Mock.client
                "1234_5678" ["post_impressions"; "post_clicks"]
                {| Response_json := Ok (JObj {[ "data" := JArr Mock.two_values ]}) |}
                {[ "data" := JArr Mock.two_values ]} Mock.two_values Mock.start)
      as (Hraw & Hiff & _); [reflexivity|reflexivity|reflexivity|metrics_ok|].
    split; [exact Hraw|]. apply Hiff.
    apply Exists_cons_tl, Exists_cons_hd. vm_compute. discriminate.
  - destruct (metrics_single_value Mock.insights_one_value_each Mock.client
                "1234_5678" ["post_impressions"; "post_clicks"]
                {| Response_json := Ok (JObj {[ "data" := JArr Mock.one_value_each ]}) |}
                {[ "data" := JArr Mock.one_value_each ]} Mock.one_value_each
                Mock.start)
      as (_ & _ & Hone); [reflexivity|reflexivity|reflexivity|metrics_ok|].
    destruct Hone as [Hrun _]; [repeat constructor|]. exact Hrun.
Defined.

(** ** The date range of a request for posts *)

Lemma grows_ret {A : Type} (a : A) : grows (mret a : M A).
Proof. intros w. exists []. simpl. rewrite app_nil_r. reflexivity. Qed.

Lemma grows_lift {A : Type} (o : outcome A) : grows (lift o).
Proof. intros w. exists []. simpl. rewrite app_nil_r. reflexivity. Qed.

Lemma grows_emit (e : event) : grows (emit e).
Proof. intros w. exists [e]. reflexivity. Qed.

Lemma grows_bind {A B : Type} (m : M A) (f : A -> M B) :
  grows m -> (forall a, grows (f a)) -> grows (m ≫= f).
Proof.
  intros Hm Hf w. rewrite bind_run. destruct (Hm w) as [r1 Hr1].
  destruct (m w) as [[a| | |] w1]; simpl in *; try (exists r1; exact Hr1).
  destruct (Hf a w1) as [r2 Hr2]. exists (r1 ++ r2).
  rewrite Hr2, Hr1, app_assoc. reflexivity.
Qed.

Lemma grows_requests_get (net : network) (url : string)
    (params : option (gmap string pval)) :
  grows (requests_get net url params).
Proof. apply grows_bind; [apply grows_emit|intros; apply grows_lift]. Qed.

Ltac grows :=
  repeat match goal with
    | |- grows (mret _) => apply grows_ret
    | |- grows (lift _) => apply grows_lift
    | |- grows (emit _) => apply grows_emit
    | |- grows (requests_get _ _ _) => apply grows_requests_get
    | |- grows (_ ≫= _) => apply grows_bind; [|intros ?]
    end.

Lemma grows_check_data (r : Response) : grows (check_data r).
Proof.
  unfold check_data, json_of, log_error, py_exit. grows.
  destruct (negb _); grows.
Qed.

Lemma grows_requests_get_json (net : network) (next_url : json) :
  grows (requests_get_json net next_url).
Proof. destruct next_url; simpl; grows. Qed.

Lemma grows_paged_loop (net : network) (fuel : nat) :
  forall result next_url, grows (paged_loop net fuel result next_url).
Proof.
  induction fuel as [|fuel IH]; intros result next_url.
  - destruct next_url; simpl; grows.
  - assert (Hstep : grows
      (response ← requests_get_json net next_url;
       check_data response;;
       j ← json_of response;
       page ← lift (py_getitem j "data");
       result' ← lift (py_extend result page);
       j' ← json_of response;
       paging ← lift (py_getitem j' "paging");
       next_url' ← lift (py_get paging "next" JNull);
       paged_loop net fuel result' next_url')).
    { unfold json_of. grows; try apply grows_requests_get_json;
        try apply grows_check_data. apply IH. }
    destruct next_url; simpl; first [exact Hstep | grows].
Qed.

Lemma bind_trace {A B : Type} (m : M A) (f : A -> M B) (w : world) :
  (forall a, grows (f a)) ->
  ∃ rest, trace ((m ≫= f) w).2 = trace (m w).2 ++ rest.
Proof.
  intros Hf. rewrite bind_run.
  destruct (m w) as [[a| | |] w1]; simpl;
    try (exists []; rewrite app_nil_r; reflexivity).
  apply Hf.
Qed.

(** The paged request starts with the request for the first page. *)
Lemma paged_get_first_request (net : network) (fuel : nat)
    (self : FacebookClient) (endpoint : string)
    (params : option (gmap string pval)) (w : world) :
  ∃ rest,
    trace (_make_paged_get_request net fuel self endpoint params w).2
    = trace w ++ EvGet (_BASE_URL ++ endpoint)%string
                   (Some (with_token self (default ∅ params))) :: rest.
Proof.
  unfold _make_paged_get_request.
  match goal with
  | |- context [requests_get net ?u ?p ≫= ?k] =>
      assert (Hk : forall r, grows (k r))
  end.
  { intros r. unfold json_of. grows; try apply grows_check_data.
    apply grows_paged_loop. }
  rewrite bind_run, requests_get_run.
  destruct (net _ _) as [r| | |]; simpl; try (exists []; reflexivity).
  destruct (Hk r (record (EvGet (_BASE_URL ++ endpoint)%string
                   (Some (with_token self (default ∅ params)))) w))
    as [rest Hrest].
  exists rest. unfold with_token in *. rewrite Hrest. simpl.
  rewrite <- app_assoc. reflexivity.
Qed.

Lemma facebook_time_opt_spec `{DL : DateLib} (date : option datetime)
    (t : option string) :
  facebook_time_opt date = Ok t ->
  match date with
  | Some d => ∃ u, astimezone_utc d = Ok u
                   ∧ t = Some (str_replace "+00:00" "Z" (isoformat u))
  | None => t = None
  end.
Proof.
  destruct date as [d|]; simpl; [|intros [= <-]; reflexivity].
  unfold _date_to_facebook_time.
  destruct (astimezone_utc d) as [u| | |]; simpl; try discriminate.
  intros [= <-]. exists u. split; reflexivity.
Qed.

Lemma posts_params_lookup (self : FacebookClient) (fields : list string)
    (since until : option string) :
  posts_params self fields since until !! "since" = PStr <$> since
  ∧ posts_params self fields since until !! "until" = PStr <$> until.
Proof.
  unfold posts_params, with_token, with_param.
  destruct since, until; simpl; split; reflexivity.
Qed.

(** C6. The request for a page's posts carries "since" (respectively
    "until") exactly when [created_after] (respectively [created_before])
    is given, and its value is that datetime converted to UTC and written
    in ISO 8601 with "Z" in place of the "+00:00" offset. *)
Theorem date_range_params (net : network) `{DL : DateLib} (fuel : nat)
    (self : FacebookClient) (page_id : string) (fields : list string)
    (created_after created_before : option datetime)
    (since until : option string) (w : world) :
  facebook_time_opt created_after = Ok since ->
  facebook_time_opt created_before = Ok until ->
  ∃ params log rest,
    trace (get_posts_published_by_page net fuel self page_id fields
             created_after created_before w).2
    = trace w ++ EvLog DEBUG log None
                 :: EvGet (posts_url page_id) (Some params) :: rest
    ∧ params !! "since" = PStr <$> since
    ∧ params !! "until" = PStr <$> until
    ∧ match created_after with
      | Some d => ∃ u, astimezone_utc d = Ok u
                       ∧ since = Some (str_replace "+00:00" "Z" (isoformat u))
      | None => since = None
      end
    ∧ match created_before with
      | Some d => ∃ u, astimezone_utc d = Ok u
                       ∧ until = Some (str_replace "+00:00" "Z" (isoformat u))
      | None => until = None
      end.
Proof.
  intros Hsince Huntil.
  unfold get_posts_published_by_page.
  rewrite bind_run. unfold log_debug at 1. rewrite emit_run.
  rewrite bind_run, (facebook_time_opt_ok _ _ _ _ _ Hsince).
  rewrite bind_run, (facebook_time_opt_ok _ _ _ _ _ Huntil).
  match goal with
  | |- context [(_make_paged_get_request net fuel self ?e ?p ≫= ?k) ?w0] =>
      destruct (bind_trace (_make_paged_get_request net fuel self e p) k w0)
        as [rest' Hrest']; [intros a; unfold log_info; grows|];
      destruct (paged_get_first_request net fuel self e p w0) as [rest Hrest]
  end.
  simpl in Hrest.
  exists (posts_params self fields since until). eexists.
  exists (rest ++ rest').
  split; [|split; [apply posts_params_lookup|split;
                   [apply posts_params_lookup|split]]].
  - rewrite Hrest', Hrest. rewrite <- !app_assoc. simpl. reflexivity.
  - apply facebook_time_opt_spec, Hsince.
  - apply facebook_time_opt_spec, Huntil.
Qed.

Lemma date_range_params_witness :
  ∃ params log rest,
    trace (get_posts_published_by_page Mock.three_pages
             (DL := PyDates.date_lib 0) 3 Mock.client "1234" ["message"]
             (Some (PyDates.Build_dt 2020 8 24 13 30 0 0 (Some 180%Z)))
             None Mock.start).2
    = EvLog DEBUG log None :: EvGet (posts_url "1234") (Some params) :: rest
    ∧ params !! "since" = Some (PStr "2020-08-24T10:30:00Z")
    ∧ params !! "until" = None.
Proof.
  destruct (date_range_params Mock.three_pages (DL := PyDates.date_lib 0)
              3 Mock.client "1234" ["message"]
              (Some (PyDates.Build_dt 2020 8 24 13 30 0 0 (Some 180%Z)))
              None (Some "2020-08-24T10:30:00Z") None Mock.start)
    as (params & log & rest & Htrace & Hsince & Huntil & _);
    [reflexivity|reflexivity|].
  exists params, log, rest. repeat split; assumption.
Defined.

(** ** Comments to traced data *)

(** *** Namespaced keys *)

Lemma has_dot_namespaced (dataset_name k : string) :
  has_dot (dataset_name ++ "." ++ k)%string = true.
Proof.
  induction dataset_name as [|c s IH]; simpl; [reflexivity|].
  rewrite IH. apply orb_true_r.
Qed.

Lemma namespaced_not_avf (dataset_name k : string) :
  (dataset_name ++ "." ++ k)%string ≠ "avf_facebook_id".
Proof.
  intros Heq. pose proof (has_dot_namespaced dataset_name k) as Hdot.
  rewrite Heq in Hdot. discriminate.
Qed.

Lemma namespaced_inj (dataset_name k k' : string) :
  (dataset_name ++ "." ++ k)%string = (dataset_name ++ "." ++ k')%string ->
  k = k'.
Proof.
  induction dataset_name as [|c s IH]; simpl; intros [= Heq]; auto.
Qed.

Lemma add_items_other (dataset_name : string) (items : list (string * json))
    (dict : gmap string json) (key : string) :
  (forall kv, kv ∈ items -> (dataset_name ++ "." ++ kv.1)%string ≠ key) ->
  add_items dataset_name items dict !! key = dict !! key.
Proof.
  revert dict. induction items as [|[k v] items IH]; intros dict Hne;
    [reflexivity|].
  simpl. rewrite IH.
  - apply lookup_insert_ne. apply (Hne (k, v)). left.
  - intros kv Hkv. apply Hne. right. exact Hkv.
Qed.

Lemma add_items_lookup (dataset_name : string) (items : list (string * json))
    (dict : gmap string json) (k : string) (v : json) :
  NoDup items.*1 -> (k, v) ∈ items ->
  add_items dataset_name items dict !! (dataset_name ++ "." ++ k)%string
  = Some v.
Proof.
  revert dict. induction items as [|[k' v'] items IH]; intros dict Hnd Hin;
    [inversion Hin|].
  apply NoDup_cons in Hnd as [Hfresh Hnd]. simpl.
  apply elem_of_cons in Hin as [[= <- <-]|Hin].
  - rewrite add_items_other; [apply lookup_insert_eq|].
    intros [k2 v2] Hkv Heq. apply namespaced_inj in Heq. simpl in Heq.
    subst k2. apply Hfresh. apply list_elem_of_fmap. exists (k, v2).
    split; [reflexivity|exact Hkv].
  - apply IH; assumption.
Qed.

(** The dictionary of a traced comment: the pseudonymous id and every
    field of the comment under its namespaced key. *)
Lemma comment_dict_lookup (dataset_name : string)
    (comment : gmap string json) (uuid : json) :
  let dict := add_items dataset_name (map_to_list comment)
                {[ "avf_facebook_id" := uuid ]} in
  dict !! "avf_facebook_id" = Some uuid
  ∧ forall k v, comment !! k = Some v ->
                dict !! (dataset_name ++ "." ++ k)%string = Some v.
Proof.
  split.
  - rewrite add_items_other; [apply lookup_singleton_eq|].
    intros kv _. apply namespaced_not_avf.
  - intros k v Hk. apply add_items_lookup.
    + apply NoDup_fst_map_to_list.
    + apply elem_of_map_to_list. exact Hk.
Qed.

(** *** The loops *)

Lemma for_eachM_app {A B : Type} (step : A -> B -> M A) (l1 l2 : list B) :
  forall acc w,
    for_eachM step acc (l1 ++ l2) w
    = (acc' ← for_eachM step acc l1; for_eachM step acc' l2) w.
Proof.
  induction l1 as [|x l1 IH]; intros acc w; [reflexivity|].
  simpl. rewrite !bind_run.
  destruct (step acc x w) as [[a| | |] w1]; try reflexivity.
  rewrite IH. reflexivity.
Qed.

Lemma for_eachM_stops {A B : Type} (step : A -> B -> M A) (acc : A) (x : B)
    (l : list B) (w w' : world) (o : outcome A) :
  step acc x w = (o, w') -> (forall a, o ≠ Ok a) ->
  for_eachM step acc (x :: l) w = (o, w').
Proof.
  intros Hstep Hfail. simpl. rewrite bind_run, Hstep.
  destruct o as [a| | |]; try reflexivity. destruct (Hfail a eq_refl).
Qed.

Section Convert.
Context `{DL : DateLib} `{CD : CoreData}.

Lemma author_key_run (c : loc) (comment : gmap string json) (id : string)
    (w : world) :
  heap w !! c = Some comment -> author_id comment = Some id ->
  author_key c w = (Ok (KStr id), w).
Proof.
  intros Hc Hid. unfold author_key, deref. rewrite bind_run, Hc.
  unfold author_id in Hid. run_step.
  destruct (comment !! "from") as [[| | | | |from]|]; try discriminate.
  run_step.
  destruct (from !! "id") as [[| | |id'| |]|]; try discriminate.
  injection Hid as ->. reflexivity.
Qed.

Lemma author_keys_run (raw_comments : list loc)
    (comments : list (gmap string json)) (w : world) :
  held (heap w) raw_comments comments ->
  Forall (fun comment => is_Some (author_id comment)) comments ->
  author_keys raw_comments w = (Ok (author_set comments), w).
Proof.
  unfold author_keys, author_set.
  assert (Hgen : forall acc : gset pykey,
    held (heap w) raw_comments comments ->
    Forall (fun comment => is_Some (author_id comment)) comments ->
    for_eachM (fun acc c => k ← author_key c; mret ({[ k ]} ∪ acc)) acc
      raw_comments w
    = (Ok (list_to_set
             (omap (fun comment => KStr <$> author_id comment) comments)
           ∪ acc), w)).
  { intros acc Hheld. revert acc.
    induction Hheld as [|c comment l cs Hc Hheld IH]; intros acc Hids.
    - simpl. rewrite ret_run, (left_id_L ∅ (∪)). reflexivity.
    - apply Forall_cons in Hids as [[id Hid] Hids].
      simpl. rewrite !bind_run, (author_key_run c comment id w Hc Hid).
      rewrite ret_run, Hid. simpl. rewrite IH by exact Hids.
      rewrite (assoc_L (∪)), (comm_L (∪) _ {[KStr id]}). reflexivity. }
  intros Hheld Hids. rewrite Hgen by assumption.
  rewrite (right_id_L ∅ (∪)). reflexivity.
Qed.

Lemma author_id_rewritten (comment : gmap string json) :
  author_id (rewritten comment) = author_id comment.
Proof.
  unfold rewritten, author_id. destruct (reserialized comment); [|reflexivity].
  rewrite lookup_insert_ne by discriminate. reflexivity.
Qed.

Lemma created_rewritten (comment : gmap string json) (s : string) :
  reserialized comment = Some s ->
  rewritten comment !! "created_time" = Some (JStr s).
Proof.
  intros Hs. unfold rewritten. rewrite Hs. apply lookup_insert_eq.
Qed.

(** One turn of the loop on a well-shaped comment: the timestamp is
    overwritten, then validated, then the author is looked up. *)
Lemma convert_step_run (user dataset_name : string) (lut : gmap pykey json)
    (acc : list TracedData) (c : loc) (comment : gmap string json)
    (w : world) :
  heap w !! c = Some comment -> comment_ok comment ->
  ∃ s, reserialized comment = Some s
       ∧ convert_step user dataset_name lut acc c w =
         let h1 := <[c := rewritten comment]> (heap w) in
         let w1 := World (trace w) h1 (clock_reads w) in
         match validate_utc_iso_string s with
         | Ok _ =>
             match pseudonym lut comment with
             | Some _ =>
                 (Ok (acc ++ [traced_of user dataset_name lut comment
                                (clock_reads w)]),
                  World (trace w) h1 (S (clock_reads w)))
             | None => (Raise KeyError, w1)
             end
         | Raise e => (Raise e, w1)
         | Exit k => (Exit k, w1)
         | OutOfFuel => (OutOfFuel, w1)
         end.
Proof.
  intros Hc [[id Hid] [s Hs]]. exists s. split; [exact Hs|].
  pose proof (created_rewritten comment s Hs) as Hcreated.
  pose proof Hs as Hs'. unfold reserialized, created_of in Hs'.
  destruct (comment !! "created_time") as [[| | |s0| |]|] eqn:Hct;
    try discriminate.
  simpl in Hs'. destruct (isoparse s0) as [d| | |] eqn:Hparse;
    try discriminate.
  injection Hs' as <-.
  assert (Hrw : rewritten comment
                = <["created_time" := JStr (isoformat d)]> comment).
  { unfold rewritten. rewrite Hs. reflexivity. }
  unfold convert_step.
  rewrite bind_run. unfold deref at 1. rewrite Hc.
  rewrite bind_run, lift_run. simpl. rewrite Hct.
  rewrite bind_run, lift_run, Hparse.
  rewrite bind_run. unfold setitem. rewrite Hc. rewrite <- Hrw.
  rewrite bind_run. unfold deref at 1. simpl. rewrite lookup_insert_eq.
  rewrite bind_run, lift_run. simpl. rewrite Hcreated.
  rewrite bind_run, lift_run.
  destruct (validate_utc_iso_string (isoformat d)) as [[]| | |];
    try reflexivity.
  rewrite bind_run.
  rewrite (author_key_run c (rewritten comment) id);
    [|simpl; apply lookup_insert_eq|rewrite author_id_rewritten; exact Hid].
  rewrite bind_run, lift_run. unfold pseudonym. rewrite Hid. simpl.
  destruct (lut !! KStr id) as [uuid|] eqn:Hlut; [|reflexivity].
  rewrite bind_run. unfold deref. simpl. rewrite lookup_insert_eq.
  rewrite bind_run. unfold utc_now_as_iso_string. simpl.
  unfold traced_of, pseudonym. rewrite Hid. simpl. rewrite Hlut.
  reflexivity.
Qed.

Lemma held_insert_fresh (h : gmap loc (gmap string json)) (c : loc)
    (x : gmap string json) (l : list loc)
    (comments : list (gmap string json)) :
  c ∉ l -> held h l comments -> held (<[c := x]> h) l comments.
Proof.
  intros Hfresh Hheld. induction Hheld as [|c' cm l cs Hc Hheld IH];
    constructor.
  - rewrite lookup_insert_ne; [exact Hc|]. intros ->. apply Hfresh. left.
  - apply IH. intros Hin. apply Hfresh. right. exact Hin.
Qed.

(** The loop over comments that are well shaped, pass the validator and
    have a known author. *)
Lemma convert_loop_run (user dataset_name : string) (lut : gmap pykey json)
    (raw_comments : list loc) :
  forall (comments : list (gmap string json)) (acc : list TracedData)
         (w : world),
    NoDup raw_comments ->
    held (heap w) raw_comments comments ->
    Forall comment_ok comments ->
    Forall validates comments ->
    Forall (known lut) comments ->
    for_eachM (convert_step user dataset_name lut) acc raw_comments w
    = (Ok (acc ++ imap (fun i comment =>
                          traced_of user dataset_name lut comment
                            (clock_reads w + i)) comments),
       World (trace w) (rewrite_all raw_comments (heap w))
         (clock_reads w + length raw_comments)).
Proof.
  induction raw_comments as [|c l IH]; intros comments acc w Hnd Hheld
    Hok Hval Hknown.
  - apply Forall2_nil_inv_l in Hheld as ->. simpl.
    rewrite ret_run, app_nil_r, Nat.add_0_r. destruct w; reflexivity.
  - apply Forall2_cons_inv_l in Hheld as (cm & cs & Hc & Hheld & ->).
    apply NoDup_cons in Hnd as [Hfresh Hnd].
    apply Forall_cons in Hok as [Hok1 Hok].
    apply Forall_cons in Hval as [(s & Hs & Hv) Hval].
    apply Forall_cons in Hknown as [(id & Hid & [uuid Hlut]) Hknown].
    destruct (convert_step_run user dataset_name lut acc c cm w Hc Hok1)
      as (s' & Hs' & Hstep).
    assert (s' = s) as -> by congruence.
    rewrite Hv in Hstep. unfold pseudonym in Hstep at 1.
    rewrite Hid in Hstep. simpl in Hstep. rewrite Hlut in Hstep.
    simpl. rewrite bind_run, Hstep.
    rewrite (IH cs); try assumption;
      [|simpl; apply held_insert_fresh; assumption].
    simpl. rewrite Hc, <- app_assoc, Nat.add_0_r, Nat.add_succ_r. simpl.
    f_equal. f_equal. f_equal. f_equal.
    apply imap_ext. intros i x _. simpl. f_equal. lia.
Qed.

Lemma rewrite_all_app (l1 l2 : list loc) (h : gmap loc (gmap string json)) :
  rewrite_all (l1 ++ l2) h = rewrite_all l2 (rewrite_all l1 h).
Proof. unfold rewrite_all. apply fold_left_app. Qed.

Lemma rewrite_all_fresh (l : list loc) (c : loc) :
  c ∉ l -> forall h, rewrite_all l h !! c = h !! c.
Proof.
  induction l as [|c' l IH]; intros Hfresh h; [reflexivity|].
  simpl. rewrite IH by (intros Hin; apply Hfresh; right; exact Hin).
  destruct (h !! c'); [|reflexivity].
  apply lookup_insert_ne. intros ->. apply Hfresh. left.
Qed.

(** Where each comment ends up: rewritten when its reference is in the
    list, untouched otherwise. *)
Lemma rewrite_all_lookup (l : list loc) :
  forall (comments : list (gmap string json)) (h : gmap loc (gmap string json)),
    NoDup l -> held h l comments ->
    (forall i c comment, l !! i = Some c -> comments !! i = Some comment ->
       rewrite_all l h !! c = Some (rewritten comment))
    ∧ (forall c, c ∉ l -> rewrite_all l h !! c = h !! c).
Proof.
  intros comments h Hnd Hheld. split; [|intros c Hc; apply rewrite_all_fresh, Hc].
  revert comments h Hnd Hheld.
  induction l as [|c0 l IH]; intros comments h Hnd Hheld i c comment Hi Hcm;
    [discriminate|].
  apply Forall2_cons_inv_l in Hheld as (cm & cs & Hc0 & Hheld & ->).
  apply NoDup_cons in Hnd as [Hfresh Hnd].
  simpl. rewrite Hc0. destruct i as [|i]; simpl in Hi, Hcm.
  - injection Hi as <-. injection Hcm as <-.
    rewrite rewrite_all_fresh by exact Hfresh. apply lookup_insert_eq.
  - apply (IH cs _ Hnd (held_insert_fresh h c0 _ l cs Hfresh Hheld) i);
      assumption.
Qed.

(** The conversion, once the identifier table has answered. *)
Lemma convert_unfold (user dataset_name : string) (raw_comments : list loc)
    (comments : list (gmap string json)) (table : UuidTable) (w : world) :
  held (heap w) raw_comments comments ->
  Forall (fun comment => is_Some (author_id comment)) comments ->
  let w0 := record (EvLog INFO
                      ("Converting " ++ pretty (length raw_comments)
                       ++ " Facebook comments to TracedData...")%string
                      None) w in
  convert_facebook_comments_to_traced_data user dataset_name raw_comments
    table w
  = match data_to_uuid_batch table (author_set comments) with
    | Ok lut =>
        (traced ← for_eachM (convert_step user dataset_name lut) []
                    raw_comments;
         log_info ("Converted " ++ pretty (length traced)
                   ++ " Facebook comments to TracedData")%string;;
         mret traced) w0
    | Raise e => (Raise e, w0)
    | Exit k => (Exit k, w0)
    | OutOfFuel => (OutOfFuel, w0)
    end.
Proof.
  intros Hheld Hids w0.
  unfold convert_facebook_comments_to_traced_data.
  rewrite bind_run. unfold log_info at 1. rewrite emit_run. fold w0.
  rewrite bind_run, (author_keys_run raw_comments comments w0 Hheld Hids).
  rewrite bind_run, lift_run.
  destruct (data_to_uuid_batch table (author_set comments)); reflexivity.
Qed.

Lemma comment_ok_author (comments : list (gmap string json)) :
  Forall comment_ok comments ->
  Forall (fun comment => is_Some (author_id comment)) comments.
Proof.
  intros Hok. eapply Forall_impl; [exact Hok|].
  intros comment [Hid _]. exact Hid.
Qed.

(** The conversion of comments that are well shaped, pass the validator
    and have a known author. *)
Lemma convert_run (user dataset_name : string) (raw_comments : list loc)
    (comments : list (gmap string json)) (table : UuidTable)
    (lut : gmap pykey json) (w : world) :
  NoDup raw_comments ->
  held (heap w) raw_comments comments ->
  Forall comment_ok comments ->
  Forall validates comments ->
  data_to_uuid_batch table (author_set comments) = Ok lut ->
  Forall (known lut) comments ->
  ∃ t,
    convert_facebook_comments_to_traced_data user dataset_name raw_comments
      table w
    = (Ok (imap (fun i comment =>
                   traced_of user dataset_name lut comment
                     (clock_reads w + i)) comments),
       World t (rewrite_all raw_comments (heap w))
         (clock_reads w + length raw_comments)).
Proof.
  intros Hnd Hheld Hok Hval Htable Hknown.
  rewrite (convert_unfold user dataset_name raw_comments comments table w
             Hheld (comment_ok_author comments Hok)).
  rewrite Htable, bind_run.
  rewrite (convert_loop_run user dataset_name lut raw_comments comments [])
    by assumption.
  eexists. reflexivity.
Qed.

(** The conversion stops at the first comment that fails the validator
    or whose author the table's answer does not know; that comment has
    been rewritten by then, the ones after it have not. *)
Lemma convert_stops (user dataset_name : string) (l1 l2 : list loc) (c : loc)
    (cs1 cs2 : list (gmap string json)) (comment : gmap string json)
    (table : UuidTable) (lut : gmap pykey json) (w : world) (s : string) :
  NoDup (l1 ++ c :: l2) ->
  held (heap w) (l1 ++ c :: l2) (cs1 ++ comment :: cs2) ->
  length l1 = length cs1 ->
  Forall comment_ok (cs1 ++ comment :: cs2) ->
  Forall validates cs1 ->
  data_to_uuid_batch table (author_set (cs1 ++ comment :: cs2)) = Ok lut ->
  Forall (known lut) cs1 ->
  reserialized comment = Some s ->
  forall o : outcome (list TracedData),
    match validate_utc_iso_string s with
    | Ok _ => pseudonym lut comment = None ∧ o = Raise KeyError
    | Raise e => o = Raise e
    | Exit k => o = Exit k
    | OutOfFuel => o = OutOfFuel
    end ->
    ∃ t,
      convert_facebook_comments_to_traced_data user dataset_name
        (l1 ++ c :: l2) table w
      = (o, World t (rewrite_all (l1 ++ [c]) (heap w))
              (clock_reads w + length l1)).
Proof.
  intros Hnd Hheld Hlen Hok Hval Htable Hknown Hs o Ho.
  rewrite (convert_unfold user dataset_name _ _ table w
             Hheld (comment_ok_author _ Hok)).
  rewrite Htable, bind_run, for_eachM_app, bind_run.
  apply Forall2_app_inv in Hheld as [Hheld1 Hheld2]; [|exact Hlen].
  apply Forall2_cons_1 in Hheld2 as [Hc _].
  apply Forall_app in Hok as [Hok1 Hok2].
  apply Forall_cons in Hok2 as [Hokc _].
  assert (Hnd1 : NoDup l1) by (apply NoDup_app in Hnd; tauto).
  assert (Hfresh : c ∉ l1).
  { apply NoDup_app in Hnd as (_ & Hdisj & _). intros Hin.
    apply (Hdisj c Hin). left. }
  rewrite (convert_loop_run user dataset_name lut l1 cs1 [])
    by assumption.
  match goal with
  | |- context [for_eachM _ ?acc (c :: l2) ?w1] =>
      destruct (convert_step_run user dataset_name lut acc c comment w1)
        as (s' & Hs' & Hstep);
      [simpl; rewrite rewrite_all_fresh by exact Hfresh; exact Hc
      |exact Hokc|];
      assert (Hrun : convert_step user dataset_name lut acc c w1
                     = (o, World (trace w1)
                             (<[c := rewritten comment]> (heap w1))
                             (clock_reads w1)));
      [|rewrite (for_eachM_stops _ acc c l2 w1 _ o Hrun)]
  end.
  - rewrite Hstep. assert (s' = s) as -> by congruence. simpl.
    destruct (validate_utc_iso_string s).
    + destruct Ho as [-> ->]. reflexivity.
    + subst o. reflexivity.
    + subst o. reflexivity.
    + subst o. reflexivity.
  - eexists. simpl. rewrite rewrite_all_app. simpl.
    rewrite rewrite_all_fresh by exact Hfresh. rewrite Hc.
    destruct o; try reflexivity.
    destruct (validate_utc_iso_string s); [destruct Ho as [_ [=]]|..];
      discriminate.
  - destruct (validate_utc_iso_string s); [destruct Ho as [_ ->]|..];
      subst; intros tds; discriminate.
Qed.

End Convert.

(** *** The claims about the conversion *)

Lemma rewritten_other `{DL : DateLib} (comment : gmap string json) (k : string) :
  k ≠ "created_time" -> rewritten comment !! k = comment !! k.
Proof.
  intros Hk. unfold rewritten. destruct (reserialized comment); [|reflexivity].
  apply lookup_insert_ne. congruence.
Qed.

(** C5. When every author id is in the table's batch result, each comment
    yields a traced record that maps "avf_facebook_id" to the pseudonymous
    id of the comment's author and, for every key k with value v of the
    comment (its timestamp as rewritten), "<dataset_name>.<k>" to v. An
    error raised by the table is raised by the conversion; an author the
    batch result lacks raises the KeyError of the lookup. *)
Theorem comments_to_traced_data `{DL : DateLib} `{CD : CoreData}
    (user dataset_name : string) (raw_comments : list loc)
    (comments : list (gmap string json)) (table : UuidTable) (w : world) :
  NoDup raw_comments ->
  held (heap w) raw_comments comments ->
  Forall comment_ok comments ->
  (forall lut,
     data_to_uuid_batch table (author_set comments) = Ok lut ->
     Forall validates comments ->
     Forall (known lut) comments ->
     ∃ traced w',
       convert_facebook_comments_to_traced_data user dataset_name
         raw_comments table w = (Ok traced, w')
       ∧ length traced = length comments
       ∧ forall i comment, comments !! i = Some comment ->
           ∃ td uuid,
             traced !! i = Some td
             ∧ pseudonym lut comment = Some uuid
             ∧ td_data td !! "avf_facebook_id" = Some uuid
             ∧ (forall k v, rewritten comment !! k = Some v ->
                  td_data td !! (dataset_name ++ "." ++ k)%string = Some v)
             ∧ (forall k v, k ≠ "created_time" -> comment !! k = Some v ->
                  td_data td !! (dataset_name ++ "." ++ k)%string = Some v))
  ∧ (forall e,
       data_to_uuid_batch table (author_set comments) = Raise e ->
       ∃ w',
         convert_facebook_comments_to_traced_data user dataset_name
           raw_comments table w = (Raise e, w')
         ∧ heap w' = heap w)
  ∧ (forall lut l1 c l2 cs1 comment cs2,
       raw_comments = l1 ++ c :: l2 ->
       comments = cs1 ++ comment :: cs2 ->
       length l1 = length cs1 ->
       data_to_uuid_batch table (author_set comments) = Ok lut ->
       Forall validates (cs1 ++ [comment]) ->
       Forall (known lut) cs1 ->
       pseudonym lut comment = None ->
       ∃ w',
         convert_facebook_comments_to_traced_data user dataset_name
           raw_comments table w = (Raise KeyError, w')).
Proof.
  intros Hnd Hheld Hok. split; [|split].
  - intros lut Htable Hval Hknown.
    destruct (convert_run user dataset_name raw_comments comments table lut w
                Hnd Hheld Hok Hval Htable Hknown) as [t Hrun].
    eexists _, _. split; [exact Hrun|]. split; [apply length_imap|].
    intros i comment Hi.
    rewrite Forall_forall in Hknown.
    destruct (Hknown comment) as (id & Hid & [uuid Hlut]);
      [eapply list_elem_of_lookup_2; exact Hi|].
    assert (Hps : pseudonym lut comment = Some uuid).
    { unfold pseudonym. rewrite Hid. exact Hlut. }
    eexists _, uuid. rewrite list_lookup_imap, Hi.
    split; [reflexivity|]. split; [exact Hps|].
    unfold traced_of. cbn [td_data]. rewrite Hps. cbn [default].
    destruct (comment_dict_lookup dataset_name (rewritten comment) uuid)
      as [Havf Hkeys].
    split; [exact Havf|]. split; [exact Hkeys|].
    intros k v Hk Hkv. apply Hkeys. rewrite rewritten_other by exact Hk.
    exact Hkv.
  - intros e Htable.
    rewrite (convert_unfold user dataset_name raw_comments comments table w
               Hheld (comment_ok_author comments Hok)).
    rewrite Htable. eexists. split; reflexivity.
  - intros lut l1 c l2 cs1 comment cs2 -> -> Hlen Htable Hval Hknown Hps.
    apply Forall_app in Hval as [Hval1 Hvalc].
    apply Forall_cons in Hvalc as [(s & Hs & Hv) _].
    destruct (convert_stops user dataset_name l1 l2 c cs1 cs2 comment table
                lut w s Hnd Hheld Hlen Hok Hval1 Htable Hknown Hs
                (Raise KeyError)) as [t Hrun].
    + rewrite Hv. split; [exact Hps|reflexivity].
    + eexists. exact Hrun.
Qed.

(** A property of each comment of a literal list. *)
Ltac each_comment tac :=
  repeat (apply Forall_cons_2; [tac|]); apply Forall_nil_2.

(** The sample store holds two well-shaped comments whose timestamps pass
    the validator. *)
Lemma two_comments_held :
  NoDup [0; 1]
  ∧ held (heap Mock.two_comments) [0; 1] [Mock.comment1; Mock.comment2]
  ∧ Forall (comment_ok (DL := Mock.dates)) [Mock.comment1; Mock.comment2]
  ∧ Forall (validates (DL := Mock.dates) (CD := Mock.core))
      [Mock.comment1; Mock.comment2]
  ∧ Forall (known Mock.uuids) [Mock.comment1; Mock.comment2].
Proof.
  split; [|split; [|split; [|split]]].
  - apply NoDup_cons. split; [unfold_elem_of; lia|]. apply NoDup_singleton.
  - repeat constructor.
  - each_comment ltac:(split; eexists; vm_compute; reflexivity).
  - each_comment ltac:(eexists; split; [vm_compute; reflexivity|];
                       vm_compute; reflexivity).
  - each_comment ltac:(eexists; split; [vm_compute; reflexivity|];
                       eexists; vm_compute; reflexivity).
Qed.

Lemma comments_to_traced_data_witness :
  ∃ traced w' td,
    convert_facebook_comments_to_traced_data (DL := Mock.dates)
      (CD := Mock.core) "analyst" "facebook_s01" [0; 1] Mock.table
      Mock.two_comments = (Ok traced, w')
    ∧ length traced = 2
    ∧ traced !! 0 = Some td
    ∧ td_data td !! "avf_facebook_id" = Some (JStr "avf-facebook-uuid-1")
    ∧ td_data td !! "facebook_s01.message" = Some (JStr "Hello").
Proof.
  destruct two_comments_held as (Hnd & Hheld & Hok & Hval & Hknown).
  destruct (comments_to_traced_data (DL := Mock.dates) (CD := Mock.core)
              "analyst" "facebook_s01" [0; 1] [Mock.comment1; Mock.comment2]
              Mock.table Mock.two_comments Hnd Hheld Hok) as (Hconv & _ & _).
  destruct (Hconv Mock.uuids eq_refl Hval Hknown)
    as (traced & w' & Hrun & Hlen & Hrec).
  destruct (Hrec 0 Mock.comment1 eq_refl)
    as (td & uuid & Htd & Hps & Havf & _ & Hkeys).
  exists traced, w', td. split; [exact Hrun|]. split; [exact Hlen|].
  split; [exact Htd|]. split.
  - rewrite Havf, <- Hps. reflexivity.
  - apply (Hkeys "message" (JStr "Hello")); [discriminate|reflexivity].
Defined.

(** C9. The conversion rewrites its argument in place: after it returns,
    the dictionary behind every reference of [raw_comments] has its
    "created_time" overwritten with the timestamp parsed and written
    again, every other field of it is as before, and no other dictionary
    of the store has changed. The references are distinct objects. *)
Theorem comments_rewritten_in_place `{DL : DateLib} `{CD : CoreData}
    (user dataset_name : string) (raw_comments : list loc)
    (comments : list (gmap string json)) (table : UuidTable)
    (lut : gmap pykey json) (w : world) :
  NoDup raw_comments ->
  held (heap w) raw_comments comments ->
  Forall comment_ok comments ->
  Forall validates comments ->
  data_to_uuid_batch table (author_set comments) = Ok lut ->
  Forall (known lut) comments ->
  ∃ traced w',
    convert_facebook_comments_to_traced_data user dataset_name raw_comments
      table w = (Ok traced, w')
    ∧ (forall i c comment,
         raw_comments !! i = Some c -> comments !! i = Some comment ->
         ∃ s comment',
           reserialized comment = Some s
           ∧ heap w' !! c = Some comment'
           ∧ comment' !! "created_time" = Some (JStr s)
           ∧ forall k, k ≠ "created_time" -> comment' !! k = comment !! k)
    ∧ (forall c, c ∉ raw_comments -> heap w' !! c = heap w !! c).
Proof.
  intros Hnd Hheld Hok Hval Htable Hknown.
  destruct (convert_run user dataset_name raw_comments comments table lut w
              Hnd Hheld Hok Hval Htable Hknown) as [t Hrun].
  destruct (rewrite_all_lookup raw_comments comments (heap w) Hnd Hheld)
    as [Hin Hout].
  eexists _, _. split; [exact Hrun|]. simpl. split; [|exact Hout].
  intros i c comment Hi Hcm.
  rewrite Forall_forall in Hok.
  destruct (Hok comment) as [_ [s Hs]];
    [eapply list_elem_of_lookup_2; exact Hcm|].
  exists s, (rewritten comment). split; [exact Hs|].
  split; [exact (Hin i c comment Hi Hcm)|].
  split; [apply created_rewritten, Hs|].
  intros k Hk. apply rewritten_other, Hk.
Qed.

Lemma comments_rewritten_in_place_witness :
  ∃ traced w' comment',
    convert_facebook_comments_to_traced_data (DL := Mock.dates)
      (CD := Mock.core) "analyst" "facebook_s01" [0; 1] Mock.table
      Mock.two_comments = (Ok traced, w')
    ∧ heap w' !! 1 = Some comment'
    ∧ Mock.comment2 !! "created_time" = Some (JStr "2020-08-24T11:45:10+0000")
    ∧ comment' !! "created_time" = Some (JStr "2020-08-24T11:45:10+00:00")
    ∧ comment' !! "message" = Some (JStr "Asante").
Proof.
  destruct two_comments_held as (Hnd & Hheld & Hok & Hval & Hknown).
  destruct (comments_rewritten_in_place (DL := Mock.dates) (CD := Mock.core)
              "analyst" "facebook_s01" [0; 1] [Mock.comment1; Mock.comment2]
              Mock.table Mock.uuids Mock.two_comments Hnd Hheld Hok Hval
              eq_refl Hknown) as (traced & w' & Hrun & Hin & _).
  destruct (Hin 1 1 Mock.comment2 eq_refl eq_refl)
    as (s & comment' & Hs & Hc & Hct & Hother).
  exists traced, w', comment'. split; [exact Hrun|]. split; [exact Hc|].
  split; [reflexivity|]. split.
  - rewrite Hct. vm_compute in Hs. congruence.
  - rewrite (Hother "message") by discriminate. reflexivity.
Defined.

(** C8 fails as stated: a timestamp three hours east of UTC is written
    again with its offset, "+03:00", not converted to UTC; the stored
    string does not pass the validator and the conversion raises the
    validator's error. *)
Lemma east_timestamp_not_normalized :
  let run := convert_facebook_comments_to_traced_data (DL := Mock.dates)
               (CD := Mock.core) "analyst" "facebook_s01" [0; 1] Mock.table
               Mock.east_second in
  Mock.comment_east !! "created_time" = Some (JStr "2020-08-24T13:30:00+0300")
  ∧ run.1 = Raise AssertionError
  ∧ (heap run.2 !! 1) ≫= (fun comment => comment !! "created_time")
    = Some (JStr "2020-08-24T13:30:00+03:00")
  ∧ validate_utc_iso_string (CoreData := Mock.core) "2020-08-24T13:30:00+03:00"
    = Raise AssertionError.
Proof. vm_compute. repeat split. Qed.

(** C8, as the code has it. The timestamp of every comment is parsed and
    written again in ISO 8601 form, offset unchanged, and the result is
    checked by the UTC validator. When every rewritten timestamp passes,
    each stored "created_time" is that validated string; a rewritten
    timestamp the validator refuses is stored all the same, the validator's
    error is raised at that comment, and no records are returned. *)
Theorem timestamps_rewritten_then_validated `{DL : DateLib} `{CD : CoreData}
    (user dataset_name : string) (raw_comments : list loc)
    (comments : list (gmap string json)) (table : UuidTable)
    (lut : gmap pykey json) (w : world) :
  NoDup raw_comments ->
  held (heap w) raw_comments comments ->
  Forall comment_ok comments ->
  data_to_uuid_batch table (author_set comments) = Ok lut ->
  (Forall validates comments ->
   Forall (known lut) comments ->
   ∃ traced w',
     convert_facebook_comments_to_traced_data user dataset_name raw_comments
       table w = (Ok traced, w')
     ∧ forall i c comment,
         raw_comments !! i = Some c -> comments !! i = Some comment ->
         ∃ s0 d,
           created_of comment = Some s0
           ∧ isoparse s0 = Ok d
           ∧ (heap w' !! c) ≫= (fun comment' => comment' !! "created_time")
             = Some (JStr (isoformat d))
           ∧ validate_utc_iso_string (isoformat d) = Ok tt)
  ∧ (forall l1 c l2 cs1 comment cs2 s0 d e,
       raw_comments = l1 ++ c :: l2 ->
       comments = cs1 ++ comment :: cs2 ->
       length l1 = length cs1 ->
       Forall validates cs1 ->
       Forall (known lut) cs1 ->
       created_of comment = Some s0 ->
       isoparse s0 = Ok d ->
       validate_utc_iso_string (isoformat d) = Raise e ->
       ∃ w',
         convert_facebook_comments_to_traced_data user dataset_name
           raw_comments table w = (Raise e, w')
         ∧ (heap w' !! c) ≫= (fun comment' => comment' !! "created_time")
           = Some (JStr (isoformat d))).
Proof.
  intros Hnd Hheld Hok Htable. split.
  - intros Hval Hknown.
    destruct (convert_run user dataset_name raw_comments comments table lut w
                Hnd Hheld Hok Hval Htable Hknown) as [t Hrun].
    destruct (rewrite_all_lookup raw_comments comments (heap w) Hnd Hheld)
      as [Hin _].
    eexists _, _. split; [exact Hrun|]. simpl.
    intros i c comment Hi Hcm.
    rewrite Forall_forall in Hval.
    destruct (Hval comment) as (s & Hs & Hv);
      [eapply list_elem_of_lookup_2; exact Hcm|].
    rewrite (Hin i c comment Hi Hcm). simpl.
    rewrite (created_rewritten comment s Hs).
    unfold reserialized in Hs.
    destruct (created_of comment) as [s0|]; [|discriminate]. simpl in Hs.
    destruct (isoparse s0) as [d| | |] eqn:Hparse; try discriminate.
    injection Hs as <-. exists s0, d. repeat split; assumption.
  - intros l1 c l2 cs1 comment cs2 s0 d e -> -> Hlen Hval Hknown Hcreated
      Hparse Hv.
    assert (Hs : reserialized comment = Some (isoformat d)).
    { unfold reserialized. rewrite Hcreated. simpl. rewrite Hparse.
      reflexivity. }
    destruct (convert_stops user dataset_name l1 l2 c cs1 cs2 comment table
                lut w (isoformat d) Hnd Hheld Hlen Hok Hval Htable Hknown Hs
                (Raise e)) as [t Hrun]; [rewrite Hv; reflexivity|].
    eexists. split; [exact Hrun|]. simpl.
    rewrite rewrite_all_app. simpl.
    assert (Hfresh : c ∉ l1).
    { apply NoDup_app in Hnd as (_ & Hdisj & _). intros Hin.
      apply (Hdisj c Hin). left. }
    apply Forall2_app_inv in Hheld as [_ Hheld2]; [|exact Hlen].
    apply Forall2_cons_1 in Hheld2 as [Hc _].
    rewrite rewrite_all_fresh by exact Hfresh. rewrite Hc.
    rewrite lookup_insert_eq. simpl.
    apply created_rewritten, Hs.
Qed.

Lemma timestamps_rewritten_then_validated_witness :
  (∃ traced w',
     convert_facebook_comments_to_traced_data (DL := Mock.dates)
       (CD := Mock.core) "analyst" "facebook_s01" [0; 1] Mock.table
       Mock.two_comments = (Ok traced, w')
     ∧ (heap w' !! 0) ≫= (fun comment' => comment' !! "created_time")
       = Some (JStr "2020-08-24T10:30:00+00:00"))
  ∧ (∃ w',
       convert_facebook_comments_to_traced_data (DL := Mock.dates)
         (CD := Mock.core) "analyst" "facebook_s01" [0; 1] Mock.table
         Mock.east_second = (Raise AssertionError, w')
       ∧ (heap w' !! 1) ≫= (fun comment' => comment' !! "created_time")
         = Some (JStr "2020-08-24T13:30:00+03:00")).
Proof.
  split.
  - destruct two_comments_held as (Hnd & Hheld & Hok & Hval & Hknown).
    destruct (timestamps_rewritten_then_validated (DL := Mock.dates)
                (CD := Mock.core) "analyst" "facebook_s01" [0; 1]
                [Mock.comment1; Mock.comment2] Mock.table Mock.uuids
                Mock.two_comments Hnd Hheld Hok eq_refl) as [Hpass _].
    destruct (Hpass Hval Hknown) as (traced & w' & Hrun & Hstored).
    destruct (Hstored 0 0 Mock.comment1 eq_refl eq_refl)
      as (s0 & d & Hs0 & Hd & Hheap & _).
    exists traced, w'. split; [exact Hrun|].
    vm_compute in Hs0. injection Hs0 as <-.
    vm_compute in Hd. injection Hd as <-. exact Hheap.
  - destruct two_comments_held as (Hnd & _ & _ & Hval & Hknown).
    apply Forall_cons in Hval as [Hval1 _].
    apply Forall_cons in Hknown as [Hknown1 _].
    destruct (timestamps_rewritten_then_validated (DL := Mock.dates)
                (CD := Mock.core) "analyst" "facebook_s01" [0; 1]
                [Mock.comment1; Mock.comment_east] Mock.table Mock.uuids
                Mock.east_second Hnd) as [_ Hfail];
      [repeat constructor
      |each_comment ltac:(split; eexists; vm_compute; reflexivity)
      |reflexivity|].
    apply (Hfail [0] 1 [] [Mock.comment1] Mock.comment_east []
             "2020-08-24T13:30:00+0300"
             (PyDates.Build_dt 2020 8 24 13 30 0 0 (Some 180%Z))
             AssertionError);
      try reflexivity.
    + constructor; [exact Hval1|constructor].
    + constructor; [exact Hknown1|constructor].
Defined.

(** * Further properties of the client *)

(** ** The events of a run *)

Lemma emits_ret {A : Type} (P : event -> bool) (a : A) :
  emits P (mret a : M A).
Proof.
  intros w. exists []. simpl. rewrite app_nil_r. split; [reflexivity|].
  intros e He. inversion He.
Qed.

Lemma emits_lift {A : Type} (P : event -> bool) (o : outcome A) :
  emits P (lift o).
Proof.
  intros w. exists []. simpl. rewrite app_nil_r. split; [reflexivity|].
  intros e He. inversion He.
Qed.

Lemma emits_emit (P : event -> bool) (e : event) :
  P e = true -> emits P (emit e).
Proof.
  intros HP w. exists [e]. split; [reflexivity|].
  intros e' He'. apply list_elem_of_singleton in He' as ->. exact HP.
Qed.

Lemma emits_bind {A B : Type} (P : event -> bool) (m : M A) (f : A -> M B) :
  emits P m -> (forall a, emits P (f a)) -> emits P (m ≫= f).
Proof.
  intros Hm Hf w. rewrite bind_run. destruct (Hm w) as (r1 & Hr1 & HP1).
  destruct (m w) as [[a| | |] w1]; simpl in *;
    try (exists r1; split; assumption).
  destruct (Hf a w1) as (r2 & Hr2 & HP2). exists (r1 ++ r2). split.
  - rewrite Hr2, Hr1, app_assoc. reflexivity.
  - intros e He. apply elem_of_app in He as [He|He]; auto.
Qed.

Lemma emits_weaken {A : Type} (P Q : event -> bool) (m : M A) :
  (forall e, P e = true -> Q e = true) -> emits P m -> emits Q m.
Proof.
  intros HPQ Hm w. destruct (Hm w) as (rest & Hrest & HP).
  exists rest. split; [exact Hrest|]. intros e He. apply HPQ, HP, He.
Qed.

Ltac emits :=
  repeat match goal with
    | |- emits _ (mret _) => apply emits_ret
    | |- emits _ (lift _) => apply emits_lift
    | |- emits _ (emit _) => apply emits_emit; reflexivity
    | |- emits _ (_ ≫= _) => apply emits_bind; [|intros ?]
    end.

Lemma emits_requests_get (P : event -> bool) (net : network) (url : string)
    (params : option (gmap string pval)) :
  P (EvGet url params) = true -> emits P (requests_get net url params).
Proof.
  intros HP. unfold requests_get. apply emits_bind;
    [apply emits_emit, HP|intros; apply emits_lift].
Qed.

Lemma emits_check_data (r : Response) : emits follow_up (check_data r).
Proof.
  unfold check_data, json_of, log_error, py_exit. emits.
  destruct (negb _); emits.
Qed.

Lemma emits_requests_get_json (net : network) (next_url : json) :
  emits follow_up (requests_get_json net next_url).
Proof.
  destruct next_url; simpl; emits. apply emits_requests_get. reflexivity.
Qed.

Lemma emits_paged_loop (net : network) (fuel : nat) :
  forall result next_url,
    emits follow_up (paged_loop net fuel result next_url).
Proof.
  induction fuel as [|fuel IH]; intros result next_url.
  - destruct next_url; simpl; emits.
  - assert (Hstep : emits follow_up
      (response ← requests_get_json net next_url;
       check_data response;;
       j ← json_of response;
       page ← lift (py_getitem j "data");
       result' ← lift (py_extend result page);
       j' ← json_of response;
       paging ← lift (py_getitem j' "paging");
       next_url' ← lift (py_get paging "next" JNull);
       paged_loop net fuel result' next_url')).
    { unfold json_of. emits; try apply emits_requests_get_json;
        try apply emits_check_data. apply IH. }
    destruct next_url; simpl; first [exact Hstep | emits].
Qed.

(** X1. Whatever the network answers, the paged request starts with one
    request for the endpoint, whose parameters are the caller's with
    "access_token" set to the client's token (a caller's own
    "access_token" is replaced); everything it does after that is a request
    for a cursor, sent without parameters, or the error line for a response
    without "data". *)
Theorem paged_request_events (net : network) (fuel : nat)
    (self : FacebookClient) (endpoint : string)
    (params : option (gmap string pval)) (w : world) :
  ∃ sent rest,
    trace (_make_paged_get_request net fuel self endpoint params w).2
    = trace w ++ EvGet (_BASE_URL ++ endpoint)%string (Some sent) :: rest
    ∧ sent !! "access_token" = Some (PStr (_access_token self))
    ∧ (forall k, k ≠ "access_token" -> sent !! k = default ∅ params !! k)
    ∧ (forall e, e ∈ rest -> follow_up e = true).
Proof.
  exists (with_token self (default ∅ params)).
  unfold _make_paged_get_request.
  match goal with
  | |- context [requests_get net ?u ?p ≫= ?k] =>
      assert (Hk : forall r, emits follow_up (k r))
  end.
  { intros r. unfold json_of. emits; try apply emits_check_data.
    apply emits_paged_loop. }
  rewrite bind_run, requests_get_run. unfold with_token in *.
  destruct (net _ _) as [r| | |]; simpl.
  2-4: exists []; (split; [reflexivity|]);
       (split; [apply lookup_insert_eq|]);
       (split; [intros k Hk'; apply lookup_insert_ne; congruence|]);
       intros ev Hev; inversion Hev.
  destruct (Hk r (record (EvGet (_BASE_URL ++ endpoint)%string
                   (Some (<["access_token" := PStr (_access_token self)]>
                            (default ∅ params)))) w))
    as (rest & Hrest & HP).
  exists rest. split; [|split; [apply lookup_insert_eq|split]].
  - rewrite Hrest. simpl. rewrite <- app_assoc. reflexivity.
  - intros k Hk'. apply lookup_insert_ne. congruence.
  - exact HP.
Qed.

(** ** One request for each page *)

Lemma paged_loop_follows (net : network) (next : json) (urls : list string)
    (ds : list (list json)) :
  follows net next urls ds ->
  forall (fuel : nat) (l : list json) (w : world),
    length ds ≤ fuel ->
    paged_loop net fuel (JArr l) next w
    = (Ok (JArr (l ++ concat ds)),
       World (trace w ++ ((fun u => EvGet u None) <$> urls)) (heap w)
         (clock_reads w))
    ∧ length urls = length ds.
Proof.
  induction 1 as [|url r j d next urls ds Hnet Hj Hpage Hfollows IH];
    intros fuel l w Hfuel.
  - split; [|reflexivity]. destruct fuel; simpl; rewrite !app_nil_r;
      destruct w; reflexivity.
  - destruct fuel as [|fuel]; [simpl in Hfuel; lia|].
    destruct Hpage as (m & pg & -> & Hd & Hpg & Hnext).
    destruct (IH fuel (l ++ d) (record (EvGet url None) w)) as [Hrun Hlen];
      [simpl in Hfuel; lia|].
    split; [|simpl; rewrite Hlen; reflexivity].
    simpl. run_step. rewrite Hnet, bind_run.
    rewrite (check_data_ok r m _ Hj) by (rewrite Hd; eexists; reflexivity).
    unfold json_of. rewrite Hj. run_step. rewrite Hd. run_step.
    rewrite Hpg. run_step. rewrite Hnext, Hrun. simpl.
    rewrite <- !app_assoc. reflexivity.
Qed.

(** X2. On a chain of pages that ends without a further cursor the paged
    request sends exactly one request for each page, in the order of the
    chain: the first with the parameters and the token, one for each
    cursor after it without parameters; it logs nothing, and the store and
    the clock are as before. *)
Theorem one_request_per_page (net : network) (self : FacebookClient)
    (endpoint : string) (params : option (gmap string pval))
    (r : Response) (j : json) (d : list json) (next : json)
    (urls : list string) (ds : list (list json)) (fuel : nat) (w : world) :
  let first := EvGet (_BASE_URL ++ endpoint)%string
                 (Some (with_token self (default ∅ params))) in
  net (_BASE_URL ++ endpoint)%string
    (Some (with_token self (default ∅ params))) = Ok r ->
  Response_json r = Ok j ->
  first_page_of j d next ->
  follows net next urls ds ->
  length ds ≤ fuel ->
  _make_paged_get_request net fuel self endpoint params w
  = (Ok (JArr (concat (d :: ds))),
     World (trace w ++ first :: ((fun u => EvGet u None) <$> urls))
       (heap w) (clock_reads w))
  ∧ length (first :: ((fun u => EvGet u None) <$> urls)) = length (d :: ds).
Proof.
  intros first Hnet Hj (m & -> & Hd & Hpaging) Hfollows Hfuel.
  destruct (paged_loop_follows net next urls ds Hfollows fuel d
              (record first w) Hfuel) as [Hrun Hlen].
  split; [|simpl; rewrite length_fmap, Hlen; reflexivity].
  unfold _make_paged_get_request, with_token in *.
  rewrite bind_run, requests_get_run, Hnet. rewrite bind_run.
  rewrite (check_data_ok r m _ Hj) by (rewrite Hd; eexists; reflexivity).
  unfold json_of. rewrite Hj. run_step. rewrite Hd. run_step.
  assert (Hn : py_get (default (JObj ∅) (m !! "paging")) "next" JNull
               = Ok next).
  { destruct Hpaging as [[-> ->]|(pg & -> & <-)]; reflexivity. }
  rewrite Hn. fold first. rewrite Hrun. simpl.
  rewrite <- app_assoc. reflexivity.
Qed.

Lemma one_request_per_page_witness :
  (_make_paged_get_request Mock.three_pages 2 Mock.client
     "/1234/published_posts" None Mock.start).2
  = World [EvGet Mock.first_url (Some {[ "access_token" := PStr "token" ]});
           EvGet Mock.url2 None; EvGet Mock.url3 None] ∅ 0.
Proof.
  destruct (one_request_per_page Mock.three_pages Mock.client
              "/1234/published_posts" None
              {| Response_json :=
                   Ok (Mock.page Mock.page1 (Some {[ "next" := JStr Mock.url2 ]})) |}
              (Mock.page Mock.page1 (Some {[ "next" := JStr Mock.url2 ]}))
              Mock.page1 (JStr Mock.url2) [Mock.url2; Mock.url3]
              [Mock.page2; Mock.page3] 2 Mock.start) as [Hrun _].
  - reflexivity.
  - reflexivity.
  - eexists. split; [reflexivity|]. split; [reflexivity|].
    right. eexists. split; reflexivity.
  - eapply (follows_page _ Mock.url2 _ _ Mock.page2 (JStr Mock.url3));
      [reflexivity|reflexivity| |].
    { eexists _, _. repeat split; reflexivity. }
    eapply (follows_page _ Mock.url3 _ _ Mock.page3 JNull);
      [reflexivity|reflexivity| |constructor].
    eexists _, _. repeat split; reflexivity.
  - simpl. lia.
  - rewrite Hrun. reflexivity.
Defined.

(** ** Cursors that never end *)

Lemma paged_loop_never_ends (net : network) (U : string -> Prop) :
  closed_under_next net U ->
  forall (fuel : nat) (url : string) (l : list json) (w : world),
    U url -> (paged_loop net fuel (JArr l) (JStr url) w).1 = OutOfFuel.
Proof.
  intros Hclosed. induction fuel as [|fuel IH]; intros url l w Hurl;
    [reflexivity|].
  destruct (Hclosed url Hurl)
    as (next & (r & m & d & pg & Hnet & Hj & Hd & Hpg & Hnext) & HUnext).
  simpl. run_step. rewrite Hnet, bind_run.
  rewrite (check_data_ok r m _ Hj) by (rewrite Hd; eexists; reflexivity).
  unfold json_of. rewrite Hj. run_step. rewrite Hd. run_step.
  rewrite Hpg. run_step. rewrite Hnext. simpl. apply IH, HUnext.
Qed.

(** X3. The paging loop has no bound of its own and does not notice a
    cursor it has seen: when the cursors stay within a set of URLs each of
    which serves a page with a further cursor in the set (a page whose
    cursor points back to itself, say), the paged request does not return
    within any number of iterations. *)
Theorem cursor_cycle_never_returns (net : network) (U : string -> Prop)
    (self : FacebookClient) (endpoint : string)
    (params : option (gmap string pval)) (r : Response) (j : json)
    (d : list json) (url : string) (w : world) :
  closed_under_next net U ->
  net (_BASE_URL ++ endpoint)%string
    (Some (with_token self (default ∅ params))) = Ok r ->
  Response_json r = Ok j ->
  first_page_of j d (JStr url) ->
  U url ->
  forall fuel,
    (_make_paged_get_request net fuel self endpoint params w).1 = OutOfFuel.
Proof.
  intros Hclosed Hnet Hj (m & -> & Hd & Hpaging) Hurl fuel.
  unfold _make_paged_get_request, with_token in *.
  rewrite bind_run, requests_get_run, Hnet. rewrite bind_run.
  rewrite (check_data_ok r m _ Hj) by (rewrite Hd; eexists; reflexivity).
  unfold json_of. rewrite Hj. run_step. rewrite Hd. run_step.
  assert (Hn : py_get (default (JObj ∅) (m !! "paging")) "next" JNull
               = Ok (JStr url)).
  { destruct Hpaging as [[_ [=]]|(pg & -> & <-)]. reflexivity. }
  rewrite Hn. apply (paged_loop_never_ends net U Hclosed), Hurl.
Qed.

Lemma cursor_cycle_never_returns_witness :
  (_make_paged_get_request Loop.net 1000 Mock.client
     "/1234/published_posts" None Mock.start).1 = OutOfFuel.
Proof.
  apply (cursor_cycle_never_returns Loop.net (fun u => u = Loop.url)
           Mock.client "/1234/published_posts" None
           {| Response_json :=
                Ok (Mock.page Mock.page1 (Some {[ "next" := JStr Loop.url ]})) |}
           (Mock.page Mock.page1 (Some {[ "next" := JStr Loop.url ]}))
           Mock.page1 Loop.url Mock.start).
  - intros url ->. exists Loop.url. split; [|reflexivity].
    eexists _, _, _, _. repeat split; reflexivity.
  - reflexivity.
  - reflexivity.
  - eexists. split; [reflexivity|]. split; [reflexivity|].
    right. eexists. split; reflexivity.
  - reflexivity.
Defined.

(** ** A single post *)

(** X4. [get_post] logs one line, sends one request for the post with the
    joined fields and the token, and hands back whatever the response
    holds: a body without "data", such as an error payload, is returned
    as a value like any other, nothing is logged as an error and the
    process does not exit; an exception of the request or of the parsing
    reaches the caller. *)
Theorem get_post_passes_through (net : network) (self : FacebookClient)
    (post_id : string) (fields : list string) (w : world) :
  let url := (_BASE_URL ++ "/" ++ post_id)%string in
  let sent : gmap string pval :=
    <["access_token" := PStr (_access_token self)]>
      {[ "fields" := PStr (join "," fields) ]} in
  get_post net self post_id fields w
  = (r ← net url (Some sent); Response_json r,
     World (trace w ++ [EvLog INFO ("Fetching post '" ++ post_id ++ "'...")%string None;
                        EvGet url (Some sent)])
       (heap w) (clock_reads w))
  ∧ (forall r body,
       net url (Some sent) = Ok r -> Response_json r = Ok body ->
       (get_post net self post_id fields w).1 = Ok body).
Proof.
  intros url sent.
  assert (Hrun : get_post net self post_id fields w
    = (r ← net url (Some sent); Response_json r,
       World (trace w ++ [EvLog INFO ("Fetching post '" ++ post_id ++ "'...")%string None;
                          EvGet url (Some sent)])
         (heap w) (clock_reads w))).
  { unfold get_post, _make_get_request, log_info, json_of.
    rewrite bind_run, emit_run, bind_run, requests_get_run. simpl.
    fold url. fold sent.
    assert (Hworld : record (EvGet url (Some sent))
              (record (EvLog INFO ("Fetching post '" ++ post_id ++ "'...")%string
                         None) w)
            = World (trace w ++ [EvLog INFO ("Fetching post '" ++ post_id
                                             ++ "'...")%string None;
                                 EvGet url (Some sent)])
                (heap w) (clock_reads w)).
    { unfold record. simpl. rewrite <- app_assoc. reflexivity. }
    rewrite Hworld.
    destruct (net url (Some sent)) as [r| | |]; reflexivity. }
  split; [exact Hrun|].
  intros r body Hnet Hbody. rewrite Hrun, Hnet. exact Hbody.
Qed.

(** ** The export of the comments *)



Lemma paged_request_events_witness :
  ∃ sent rest,
    trace (_make_paged_get_request Mock.second_page_error 5 Mock.client
             "/1234/published_posts"
             (Some {[ "access_token" := PStr "another" ]}) Mock.start).2
    = EvGet Mock.first_url (Some sent) :: rest
    ∧ sent !! "access_token" = Some (PStr "token")
    ∧ (forall e, e ∈ rest -> follow_up e = true).
Proof.
  destruct (paged_request_events Mock.second_page_error 5 Mock.client
              "/1234/published_posts"
              (Some {[ "access_token" := PStr "another" ]}) Mock.start)
    as (sent & rest & Htrace & Htoken & _ & Hrest).
  exists sent, rest. repeat split; assumption.
Defined.

Lemma get_post_passes_through_witness :
  (get_post Mock.all_errors Mock.client "1234_5678" ["message"] Mock.start).1
  = Ok (JObj Mock.error_body).
Proof.
  apply (proj2 (get_post_passes_through Mock.all_errors Mock.client
                  "1234_5678" ["message"] Mock.start)
           {| Response_json := Ok (JObj Mock.error_body) |});
    reflexivity.
Defined.


(** ** The "Z" of a Facebook time *)

Lemma replace_from_other (old new : string) (a c : ascii) (s : string) :
  a ≠ c ->
  replace_from (String a old) new 0 (String c s)
  = String c (replace_from (String a old) new 0 s).
Proof.
  intros Hne. change (replace_from (String a old) new 0 (String c s))
    with (if String.prefix (String a old) (String c s)
          then (new ++ replace_from (String a old) new
                         (String.length (String a old) - 1) s)%string
          else String c (replace_from (String a old) new 0 s)).
  change (String.prefix (String a old) (String c s))
    with (if ascii_dec a c then String.prefix old s else false).
  destruct (ascii_dec a c); [contradiction|reflexivity].
Qed.

Lemma has_char_cons (a c : ascii) (s : string) :
  has_char a (String c s) = false -> a ≠ c ∧ has_char a s = false.
Proof.
  cbn [has_char]. intros Hc. apply orb_false_elim in Hc as [Hc Hs].
  apply bool_decide_eq_false in Hc. split; [congruence|exact Hs].
Qed.

Lemma replace_absent (s : string) :
  has_char "+" s = false -> str_replace "+00:00" "Z" s = s.
Proof.
  unfold str_replace. induction s as [|c s IH]; [reflexivity|].
  intros [Hc Hs]%has_char_cons.
  rewrite (replace_from_other _ _ _ _ _ Hc), IH by exact Hs. reflexivity.
Qed.

Lemma replace_suffix (p : string) :
  has_char "+" p = false ->
  str_replace "+00:00" "Z" (p ++ "+00:00") = (p ++ "Z")%string.
Proof.
  unfold str_replace. induction p as [|c p IH]; [reflexivity|].
  intros [Hc Hp]%has_char_cons.
  change (String c p ++ "+00:00")%string with (String c (p ++ "+00:00")).
  rewrite (replace_from_other _ _ _ _ _ Hc), IH by exact Hp. reflexivity.
Qed.

(** X10. [_date_to_facebook_time] ends its result in "Z" exactly where
    [isoformat] wrote the offset "+00:00": a UTC rendering that is some
    text without "+" followed by "+00:00" becomes that text followed by
    "Z", and a rendering without any "+" (one that carries no offset) is
    returned as it is, with no "Z" added. An exception of the conversion
    to UTC reaches the caller. *)
Theorem facebook_time_z_suffix `{DL : DateLib} (date : datetime) :
  (forall u p,
     astimezone_utc date = Ok u ->
     isoformat u = (p ++ "+00:00")%string ->
     has_char "+" p = false ->
     _date_to_facebook_time date = Ok (p ++ "Z")%string)
  ∧ (forall u,
       astimezone_utc date = Ok u ->
       has_char "+" (isoformat u) = false ->
       _date_to_facebook_time date = Ok (isoformat u))
  ∧ (forall e,
       astimezone_utc date = Raise e ->
       _date_to_facebook_time date = Raise e).
Proof.
  unfold _date_to_facebook_time. split; [|split].
  - intros u p Hu Hiso Hp. rewrite Hu. simpl.
    rewrite Hiso, (replace_suffix p Hp). reflexivity.
  - intros u Hu Hplain. rewrite Hu. simpl.
    rewrite (replace_absent _ Hplain). reflexivity.
  - intros e ->. reflexivity.
Qed.

Lemma facebook_time_z_suffix_witness :
  _date_to_facebook_time (DL := Mock.dates)
    (PyDates.Build_dt 2020 8 24 13 30 0 0 (Some 180%Z))
  = Ok "2020-08-24T10:30:00Z".
Proof.
  apply (proj1 (facebook_time_z_suffix (DL := Mock.dates)
                  (PyDates.Build_dt 2020 8 24 13 30 0 0 (Some 180%Z)))
           (PyDates.Build_dt 2020 8 24 10 30 0 0 (Some 0%Z))
           "2020-08-24T10:30:00");
    reflexivity.
Defined.

(** * Further properties of [clean_post_type] and the metrics *)

Lemma clean_step_range (pt : option string) (a : json) (r : option string) :
  clean_step pt a = Ok r -> r = Some "photo" ∨ r = Some "video".
Proof.
  unfold clean_step.
  destruct (py_getitem a "type") as [t| | |]; simpl; try discriminate.
  destruct t as [| | |s| |]; simpl; try discriminate.
  unfold py_eq_str, json_is_str.
  repeat (case_bool_decide; simpl); try discriminate;
    try (destruct (type_in pt _); simpl; try discriminate;
         intros [= <-]; tauto).
  exfalso. unfold_elem_of. intuition congruence.
Qed.

Lemma clean_loop_range (l : list json) :
  forall pt r,
    for_each clean_step pt l = Ok r ->
    (l = [] ∧ r = pt) ∨ (l ≠ [] ∧ (r = Some "photo" ∨ r = Some "video")).
Proof.
  induction l as [|a l IH]; intros pt r Hr.
  - injection Hr as <-. left. split; reflexivity.
  - right. split; [discriminate|]. simpl in Hr.
    destruct (clean_step pt a) as [pt'| | |] eqn:Hstep; try discriminate.
    simpl in Hr. apply clean_step_range in Hstep.
    destruct (IH pt' r Hr) as [[_ ->]|[_ Hrange]]; assumption.
Qed.

(** X6. Whatever the post, when [clean_post_type] returns, it returns
    nothing, "photo" or "video", and it returns nothing only when the
    attachment list yields no attachment at all. *)
Theorem clean_post_type_range (post : json) (r : option string) :
  clean_post_type post = Ok r ->
  (r = None ∨ r = Some "photo" ∨ r = Some "video")
  ∧ (r = None ->
     ∃ attachments data,
       py_getitem post "attachments" = Ok attachments
       ∧ py_getitem attachments "data" = Ok data
       ∧ py_iter data = Ok []).
Proof.
  unfold clean_post_type. intros Hr.
  destruct (py_getitem post "attachments") as [attachments| | |] eqn:Ha;
    simpl in Hr; try discriminate.
  destruct (py_getitem attachments "data") as [data| | |] eqn:Hd;
    simpl in Hr; try discriminate.
  destruct (py_iter data) as [l| | |] eqn:Hl; simpl in Hr; try discriminate.
  destruct (clean_loop_range l None r Hr) as [[-> ->]|[Hne Hrange]].
  - split; [tauto|]. intros _. exists attachments, data.
    repeat split; assumption.
  - split; [tauto|]. intros ->. destruct Hrange; discriminate.
Qed.

Lemma clean_post_type_range_witness :
  clean_post_type (Samples.post_with []) = Ok None
  ∧ ∃ attachments data,
      py_getitem (Samples.post_with []) "attachments" = Ok attachments
      ∧ py_getitem attachments "data" = Ok data
      ∧ py_iter data = Ok [].
Proof.
  split; [reflexivity|].
  apply (proj2 (clean_post_type_range (Samples.post_with []) None eq_refl)).
  reflexivity.
Defined.

(** The outcome of the loop, read off the kinds of the attachments. *)
Lemma clean_loop_outcome (l : list json) :
  Forall (fun a => has_type a = true) l ->
  for_each clean_step None l
  = match l with
    | [] => Ok None
    | a :: _ =>
        match kind_at a with
        | Some k =>
            if bool_decide (Forall (fun b => kind_at b = Some k) l)
            then Ok (Some k) else Raise AssertionError
        | None => Raise AssertionError
        end
    end.
Proof.
  intros Htyped. destruct l as [|a l]; [reflexivity|].
  destruct (clean_loop_total (a :: l) Htyped None) as [Hfail|[r Hr]].
  - rewrite Hfail. destruct (kind_at a) as [k|] eqn:Hk; [|reflexivity].
    case_bool_decide as Hall; [|reflexivity].
    rewrite (clean_loop_uniform k (a :: l) Hall None eq_refl) in Hfail.
    discriminate.
  - destruct (clean_loop_ok (a :: l) Htyped None r Hr) as [Hall _].
    pose proof (Forall_inv Hall) as [[k ->] Hk]. rewrite Hk, Hr.
    rewrite bool_decide_eq_true_2; [reflexivity|].
    eapply Forall_impl; [exact Hall|]. intros b [_ Hb]. exact Hb.
Qed.

(** X7. The order of the attachments does not matter: two posts whose
    attachment lists are rearrangements of one another classify alike, and
    fail alike. The attachments are objects with a string under "type". *)
Theorem clean_post_type_order (post post' : json) (l l' : list json) :
  attachments_of post = Some l ->
  attachments_of post' = Some l' ->
  l ≡ₚ l' ->
  Forall (fun a => has_type a = true) l ->
  clean_post_type post = clean_post_type post'.
Proof.
  intros Hpost Hpost' Hperm Htyped.
  assert (Htyped' : Forall (fun a => has_type a = true) l')
    by (rewrite <- Hperm; exact Htyped).
  rewrite (clean_post_type_loop post l Hpost).
  rewrite (clean_post_type_loop post' l' Hpost').
  rewrite (clean_loop_outcome l Htyped), (clean_loop_outcome l' Htyped').
  destruct l as [|a l].
  { apply Permutation_nil_l in Hperm. subst l'. reflexivity. }
  destruct l' as [|a' l'].
  { apply Permutation_nil_r in Hperm. discriminate. }
  assert (Hsame : forall k,
            Forall (fun b => kind_at b = Some k) (a :: l)
            ↔ Forall (fun b => kind_at b = Some k) (a' :: l')).
  { intros k. rewrite Hperm. reflexivity. }
  destruct (kind_at a) as [k|] eqn:Hk, (kind_at a') as [k'|] eqn:Hk'.
  - destruct (decide (Forall (fun b => kind_at b = Some k) (a :: l)))
      as [Hall|Hno].
    + pose proof (proj1 (Hsame k) Hall) as Hall'.
      pose proof (Forall_inv Hall') as Hka'.
      assert (k' = k) as -> by congruence.
      rewrite !bool_decide_eq_true_2 by assumption. reflexivity.
    + rewrite (bool_decide_eq_false_2 _ Hno).
      destruct (decide (Forall (fun b => kind_at b = Some k') (a' :: l')))
        as [Hall'|Hno'].
      * pose proof (proj2 (Hsame k') Hall') as Hall.
        pose proof (Forall_inv Hall) as Hka.
        assert (k' = k) as -> by congruence. contradiction.
      * rewrite (bool_decide_eq_false_2 _ Hno'). reflexivity.
  - case_bool_decide as Hall; [|reflexivity].
    apply Hsame in Hall. rewrite Forall_forall in Hall.
    assert (Hin : a' ∈ a' :: l') by left.
    apply Hall in Hin. congruence.
  - case_bool_decide as Hall; [|reflexivity].
    apply Hsame in Hall. rewrite Forall_forall in Hall.
    assert (Hin : a ∈ a :: l) by left.
    apply Hall in Hin. congruence.
  - reflexivity.
Qed.

Lemma clean_post_type_order_witness :
  clean_post_type (Samples.post_with Samples.mixed)
  = clean_post_type (Samples.post_with (reverse Samples.mixed)).
Proof.
  apply (clean_post_type_order (Samples.post_with Samples.mixed)
           (Samples.post_with (reverse Samples.mixed))
           Samples.mixed (reverse Samples.mixed));
    [reflexivity|reflexivity|apply perm_swap|repeat constructor].
Defined.

Lemma for_each_app {A B : Type} (step : A -> B -> outcome A) (l1 l2 : list B) :
  forall acc,
    for_each step acc (l1 ++ l2)
    = (acc' ← for_each step acc l1; for_each step acc' l2).
Proof.
  induction l1 as [|x l1 IH]; intros acc; [reflexivity|].
  simpl. destruct (step acc x) as [a| | |]; try reflexivity.
  simpl. apply IH.
Qed.

(** X8. A post served without the "attachments" field, as the Graph API
    serves a post that has none, is not classified as no type: the lookup
    raises KeyError. So does an "attachments" object without "data", and
    an attachment without "type" that is reached after attachments of one
    kind. *)
Theorem clean_post_type_missing_keys (m : gmap string json) :
  (m !! "attachments" = None -> clean_post_type (JObj m) = Raise KeyError)
  ∧ (forall am,
       m !! "attachments" = Some (JObj am) -> am !! "data" = None ->
       clean_post_type (JObj m) = Raise KeyError)
  ∧ (forall l1 o l2 k,
       attachments_of (JObj m) = Some (l1 ++ JObj o :: l2) ->
       Forall (fun a => kind_at a = Some k) l1 ->
       o !! "type" = None ->
       clean_post_type (JObj m) = Raise KeyError).
Proof.
  split; [|split].
  - intros Hm. unfold clean_post_type. simpl. rewrite Hm. reflexivity.
  - intros am Hm Ham. unfold clean_post_type. simpl. rewrite Hm. simpl.
    rewrite Ham. reflexivity.
  - intros l1 o l2 k Hl Hkinds Ho.
    rewrite (clean_post_type_loop (JObj m) _ Hl), for_each_app.
    rewrite (clean_loop_uniform k l1 Hkinds None eq_refl). simpl.
    unfold clean_step. simpl. rewrite Ho. reflexivity.
Qed.

Lemma clean_post_type_missing_keys_witness :
  clean_post_type Fixtures.text_post = Raise KeyError.
Proof.
  apply (proj1 (clean_post_type_missing_keys
                  (<["message" := JStr "Habari"]> {[ "id" := JStr "1234_1" ]}))).
  reflexivity.
Defined.

(** X9. The assertion of [get_metrics_for_post] names the metric in its
    message: a metric with a number of values other than one and no
    "name" raises KeyError from the message, not the assertion error. The
    metrics before it are well formed with one value each. *)
Theorem metrics_message_needs_name (net : network) (self : FacebookClient)
    (post_id : string) (metrics : list string) (r : Response)
    (body : gmap string json) (ms1 ms2 : list json)
    (o : gmap string json) (values : list json) (w : world) :
  net (insights_url post_id metrics) (Some (with_token self ∅)) = Ok r ->
  Response_json r = Ok (JObj body) ->
  body !! "data" = Some (JArr (ms1 ++ JObj o :: ms2)) ->
  Forall metric_ok ms1 ->
  Forall (fun m => value_count m = 1) ms1 ->
  o !! "values" = Some (JArr values) ->
  length values ≠ 1 ->
  o !! "name" = None ->
  (get_metrics_for_post net self post_id metrics w).1 = Raise KeyError.
Proof.
  intros Hnet Hj Hd Hok Hone Hvalues Hlen Hname.
  pose proof (get_raw_metrics_run net self post_id metrics r body w Hnet Hj)
    as Hraw.
  simpl in Hraw. rewrite Hd in Hraw.
  unfold get_metrics_for_post. rewrite bind_run, Hraw. simpl.
  rewrite for_each_app, (metrics_loop_single ms1 Hok Hone). simpl.
  unfold metrics_step. simpl. rewrite Hvalues. simpl.
  destruct (length values =? 1) eqn:Heq;
    [apply Nat.eqb_eq in Heq; contradiction|].
  simpl. rewrite Hname. reflexivity.
Qed.

Lemma metrics_message_needs_name_witness :
  (get_metrics_for_post Fixtures.insights_nameless Mock.client "1234_5678"
     ["post_impressions"; "post_clicks"] Mock.start).1 = Raise KeyError.
Proof.
  apply (metrics_message_needs_name Fixtures.insights_nameless Mock.client
           "1234_5678" ["post_impressions"; "post_clicks"]
           {| Response_json :=
                Ok (JObj {[ "data" := JArr [Mock.metric "post_impressions" [10%Z];
                                            Fixtures.nameless] ]}) |}
           {[ "data" := JArr [Mock.metric "post_impressions" [10%Z];
                              Fixtures.nameless] ]}
           [Mock.metric "post_impressions" [10%Z]] []
           {[ "values" := JArr [JObj {[ "value" := JNum 1 ]};
                                JObj {[ "value" := JNum 2 ]}] ]}
           [JObj {[ "value" := JNum 1 ]}; JObj {[ "value" := JNum 2 ]}]
           Mock.start);
    try reflexivity.
  - metrics_ok.
  - repeat constructor.
  - simpl. lia.
Defined.

(** * Further properties of the conversion *)

Lemma held_app_cons (h : gmap loc (gmap string json)) (l1 l2 : list loc)
    (c : loc) (cs1 cs2 : list (gmap string json))
    (comment : gmap string json) :
  held h (l1 ++ c :: l2) (cs1 ++ comment :: cs2) ->
  length l1 = length cs1 ->
  held h l1 cs1 ∧ h !! c = Some comment ∧ held h l2 cs2.
Proof.
  intros Hheld Hlen.
  apply Forall2_app_inv in Hheld as [H1 H2]; [|exact Hlen].
  apply Forall2_cons_1 in H2 as [Hc H2]. repeat split; assumption.
Qed.

(** X11. When the rewritten timestamp of a comment fails the validator,
    the conversion raises the validator's error and returns no records,
    but the store is left half converted: the comments before the failing
    one and the failing one itself have been rewritten, the comments after
    it are as they were; the clock has been read once for each comment
    before the failing one. *)
Theorem validation_failure_half_converted `{DL : DateLib} `{CD : CoreData}
    (user dataset_name : string) (l1 l2 : list loc) (c : loc)
    (cs1 cs2 : list (gmap string json)) (comment : gmap string json)
    (table : UuidTable) (lut : gmap pykey json) (w : world) (s : string)
    (e : exn) :
  NoDup (l1 ++ c :: l2) ->
  held (heap w) (l1 ++ c :: l2) (cs1 ++ comment :: cs2) ->
  length l1 = length cs1 ->
  Forall comment_ok (cs1 ++ comment :: cs2) ->
  Forall validates cs1 ->
  data_to_uuid_batch table (author_set (cs1 ++ comment :: cs2)) = Ok lut ->
  Forall (known lut) cs1 ->
  reserialized comment = Some s ->
  validate_utc_iso_string s = Raise e ->
  ∃ w',
    convert_facebook_comments_to_traced_data user dataset_name
      (l1 ++ c :: l2) table w = (Raise e, w')
    ∧ (forall i c1 comment1,
         l1 !! i = Some c1 -> cs1 !! i = Some comment1 ->
         heap w' !! c1 = Some (rewritten comment1))
    ∧ heap w' !! c = Some (rewritten comment)
    ∧ (forall i c2 comment2,
         l2 !! i = Some c2 -> cs2 !! i = Some comment2 ->
         heap w' !! c2 = Some comment2)
    ∧ clock_reads w' = clock_reads w + length l1.
Proof.
  intros Hnd Hheld Hlen Hok Hval Htable Hknown Hs Hv.
  destruct (convert_stops user dataset_name l1 l2 c cs1 cs2 comment table
              lut w s Hnd Hheld Hlen Hok Hval Htable Hknown Hs (Raise e))
    as [t Hrun]; [rewrite Hv; reflexivity|].
  destruct (held_app_cons _ _ _ _ _ _ _ Hheld Hlen) as (Hheld1 & Hc & Hheld2).
  assert (Hnd1 : NoDup (l1 ++ [c])).
  { replace (l1 ++ c :: l2) with ((l1 ++ [c]) ++ l2) in Hnd
      by (rewrite <- app_assoc; reflexivity).
    apply NoDup_app in Hnd. tauto. }
  assert (Hheld1c : held (heap w) (l1 ++ [c]) (cs1 ++ [comment])).
  { apply Forall2_app; [exact Hheld1|]. constructor; [exact Hc|constructor]. }
  destruct (rewrite_all_lookup (l1 ++ [c]) (cs1 ++ [comment]) (heap w)
              Hnd1 Hheld1c) as [Hin Hout].
  eexists. split; [exact Hrun|]. simpl. repeat split.
  - intros i c1 comment1 Hi Hcm. apply (Hin i).
    + apply lookup_app_l_Some, Hi.
    + apply lookup_app_l_Some, Hcm.
  - apply (Hin (length l1)).
    + rewrite lookup_app_r, Nat.sub_diag by lia. reflexivity.
    + rewrite lookup_app_r, Hlen, Nat.sub_diag by lia. reflexivity.
  - intros i c2 comment2 Hi Hcm. rewrite Hout.
    + unfold held in Hheld2.
      exact (Forall2_lookup_lr _ _ _ _ _ _ Hheld2 Hi Hcm).
    + replace (l1 ++ c :: l2) with ((l1 ++ [c]) ++ l2) in Hnd
        by (rewrite <- app_assoc; reflexivity).
      apply NoDup_app in Hnd as (_ & Hdisj & _). intros Hin1.
      apply (Hdisj c2 Hin1). eapply list_elem_of_lookup_2. exact Hi.
Qed.

Lemma validation_failure_half_converted_witness :
  ∃ w',
    convert_facebook_comments_to_traced_data (DL := Mock.dates)
      (CD := Mock.core) "analyst" "facebook_s01" [0; 1; 2] Mock.table
      Fixtures.east_middle = (Raise AssertionError, w')
    ∧ heap w' !! 0 = Some (rewritten (DL := Mock.dates) Mock.comment1)
    ∧ heap w' !! 1 = Some (rewritten (DL := Mock.dates) Mock.comment_east)
    ∧ heap w' !! 2 = Some Mock.comment2.
Proof.
  destruct (validation_failure_half_converted (DL := Mock.dates)
              (CD := Mock.core) "analyst" "facebook_s01" [0] [2] 1
              [Mock.comment1] [Mock.comment2] Mock.comment_east Mock.table
              Mock.uuids Fixtures.east_middle "2020-08-24T13:30:00+03:00"
              AssertionError)
    as (w' & Hrun & Hbefore & Hat & Hafter & _).
  - repeat (apply NoDup_cons; split; [unfold_elem_of; lia|]). apply NoDup_nil_2.
  - repeat constructor.
  - reflexivity.
  - each_comment ltac:(split; eexists; vm_compute; reflexivity).
  - each_comment ltac:(eexists; split; [vm_compute; reflexivity|];
                       vm_compute; reflexivity).
  - reflexivity.
  - each_comment ltac:(eexists; split; [vm_compute; reflexivity|];
                       eexists; vm_compute; reflexivity).
  - vm_compute. reflexivity.
  - vm_compute. reflexivity.
  - exists w'. split; [exact Hrun|]. split; [|split].
    + apply (Hbefore 0); reflexivity.
    + exact Hat.
    + apply (Hafter 0); reflexivity.
Defined.

(** X12. The author ids of all comments are read before the table is
    asked and before any comment is rewritten: a comment without "from"
    anywhere in the list makes the conversion raise KeyError with the
    store, the clock and the table untouched, whatever the table would
    have answered. The comments before it have an author id. *)
Theorem missing_author_stops_before_any_change `{DL : DateLib} `{CD : CoreData}
    (user dataset_name : string) (l1 l2 : list loc) (c : loc)
    (cs1 : list (gmap string json)) (comment : gmap string json)
    (table : UuidTable) (w : world) :
  held (heap w) l1 cs1 ->
  Forall (fun comment1 => is_Some (author_id comment1)) cs1 ->
  heap w !! c = Some comment ->
  comment !! "from" = None ->
  convert_facebook_comments_to_traced_data user dataset_name
    (l1 ++ c :: l2) table w
  = (Raise KeyError,
     World (trace w ++ [EvLog INFO
                          ("Converting " ++ pretty (length (l1 ++ c :: l2))
                           ++ " Facebook comments to TracedData...")%string
                          None])
       (heap w) (clock_reads w)).
Proof.
  intros Hheld Hids Hc Hfrom.
  unfold convert_facebook_comments_to_traced_data.
  rewrite bind_run. unfold log_info at 1. rewrite emit_run, bind_run.
  unfold author_keys. rewrite for_eachM_app, bind_run.
  pose proof (author_keys_run l1 cs1
                (record (EvLog INFO
                           ("Converting " ++ pretty (length (l1 ++ c :: l2))
                            ++ " Facebook comments to TracedData...")%string
                           None) w) Hheld Hids) as Hkeys.
  unfold author_keys in Hkeys. rewrite Hkeys.
  simpl. rewrite !bind_run. unfold author_key at 1, deref.
  rewrite bind_run. simpl. rewrite Hc. run_step. rewrite Hfrom.
  reflexivity.
Qed.

Lemma missing_author_stops_before_any_change_witness :
  (convert_facebook_comments_to_traced_data (DL := Mock.dates)
     (CD := Mock.core) "analyst" "facebook_s01" [0; 1] Mock.table_down
     Fixtures.anonymous_second).1 = Raise KeyError
  ∧ heap (convert_facebook_comments_to_traced_data (DL := Mock.dates)
            (CD := Mock.core) "analyst" "facebook_s01" [0; 1] Mock.table_down
            Fixtures.anonymous_second).2
    = heap Fixtures.anonymous_second.
Proof.
  assert (Hrun := missing_author_stops_before_any_change (DL := Mock.dates)
             (CD := Mock.core) "analyst" "facebook_s01" [0] [] 1
             [Mock.comment1] Fixtures.anonymous Mock.table_down
             Fixtures.anonymous_second).
  change ([0] ++ [1]) with [0; 1] in Hrun. rewrite Hrun.
  - split; reflexivity.
  - repeat constructor.
  - each_comment ltac:(eexists; vm_compute; reflexivity).
  - reflexivity.
  - reflexivity.
Defined.

Lemma add_items_lookup_inv (dataset_name : string)
    (items : list (string * json)) :
  forall (dict : gmap string json) (key : string) (v : json),
    add_items dataset_name items dict !! key = Some v ->
    dict !! key = Some v
    ∨ ∃ k, key = (dataset_name ++ "." ++ k)%string ∧ (k, v) ∈ items.
Proof.
  induction items as [|[k0 v0] items IH]; intros dict key v Hkey;
    [left; exact Hkey|].
  simpl in Hkey. apply IH in Hkey as [Hkey|(k & -> & Hin)].
  - apply lookup_insert_Some in Hkey as [[<- <-]|[_ Hkey]].
    + right. exists k0. split; [reflexivity|left].
    + left. exact Hkey.
  - right. exists k. split; [reflexivity|right; exact Hin].
Qed.

(** X13. A traced record holds the pseudonymous id under
    "avf_facebook_id" and the fields of the rewritten comment under their
    namespaced keys, and nothing else; the author's id on the platform is
    not removed: it is still in the record, inside the field
    "<dataset_name>.from". *)
Theorem traced_record_contents `{DL : DateLib} `{CD : CoreData}
    (user dataset_name : string) (raw_comments : list loc)
    (comments : list (gmap string json)) (table : UuidTable)
    (lut : gmap pykey json) (w : world) :
  NoDup raw_comments ->
  held (heap w) raw_comments comments ->
  Forall comment_ok comments ->
  Forall validates comments ->
  data_to_uuid_batch table (author_set comments) = Ok lut ->
  Forall (known lut) comments ->
  ∃ traced w',
    convert_facebook_comments_to_traced_data user dataset_name raw_comments
      table w = (Ok traced, w')
    ∧ forall i comment,
        comments !! i = Some comment ->
        ∃ td,
          traced !! i = Some td
          ∧ (forall key v,
               td_data td !! key = Some v ->
               (key = "avf_facebook_id" ∧ pseudonym lut comment = Some v)
               ∨ ∃ k, key = (dataset_name ++ "." ++ k)%string
                      ∧ rewritten comment !! k = Some v)
          ∧ (∃ from id,
               td_data td !! (dataset_name ++ ".from")%string
               = Some (JObj from)
               ∧ from !! "id" = Some (JStr id)
               ∧ author_id comment = Some id).
Proof.
  intros Hnd Hheld Hok Hval Htable Hknown.
  destruct (convert_run user dataset_name raw_comments comments table lut w
              Hnd Hheld Hok Hval Htable Hknown) as [t Hrun].
  eexists _, _. split; [exact Hrun|].
  intros i comment Hi. eexists. rewrite list_lookup_imap, Hi.
  split; [reflexivity|].
  rewrite Forall_forall in Hknown.
  destruct (Hknown comment) as (id & Hid & [uuid Hlut]);
    [eapply list_elem_of_lookup_2; exact Hi|].
  assert (Hps : pseudonym lut comment = Some uuid).
  { unfold pseudonym. rewrite Hid. exact Hlut. }
  unfold traced_of. cbn [td_data]. rewrite Hps. cbn [default]. split.
  - intros key v Hkey.
    apply add_items_lookup_inv in Hkey as [Hkey|(k & -> & Hin)].
    + apply lookup_singleton_Some in Hkey as [<- <-]. left.
      split; reflexivity.
    + right. exists k. split; [reflexivity|].
      apply elem_of_map_to_list. exact Hin.
  - unfold author_id in Hid.
    destruct (comment !! "from") as [[| | | | |from]|] eqn:Hfrom;
      try discriminate.
    destruct (from !! "id") as [[| | |id'| |]|] eqn:Hfid; try discriminate.
    injection Hid as ->. exists from, id.
    destruct (comment_dict_lookup dataset_name (rewritten comment) uuid)
      as [_ Hkeys].
    split; [|split; [exact Hfid|]].
    + apply (Hkeys "from"). rewrite rewritten_other by discriminate.
      exact Hfrom.
    + unfold author_id. rewrite Hfrom, Hfid. reflexivity.
Qed.

Lemma traced_record_contents_witness :
  ∃ traced w' td from,
    convert_facebook_comments_to_traced_data (DL := Mock.dates)
      (CD := Mock.core) "analyst" "facebook_s01" [0; 1] Mock.table
      Mock.two_comments = (Ok traced, w')
    ∧ traced !! 1 = Some td
    ∧ td_data td !! "facebook_s01.from" = Some (JObj from)
    ∧ from !! "id" = Some (JStr "user-2").
Proof.
  destruct two_comments_held as (Hnd & Hheld & Hok & Hval & Hknown).
  destruct (traced_record_contents (DL := Mock.dates) (CD := Mock.core)
              "analyst" "facebook_s01" [0; 1] [Mock.comment1; Mock.comment2]
              Mock.table Mock.uuids Mock.two_comments Hnd Hheld Hok Hval
              eq_refl Hknown) as (traced & w' & Hrun & Hrec).
  destruct (Hrec 1 Mock.comment2 eq_refl)
    as (td & Htd & _ & from & id & Hfrom & Hid & Hauthor).
  exists traced, w', td, from. split; [exact Hrun|]. split; [exact Htd|].
  split; [exact Hfrom|].
  vm_compute in Hauthor. injection Hauthor as <-. exact Hid.
Defined.

(** X14. A conversion that returns gives one record for each comment, in
    the order of the list; the record of the i-th comment carries the
    user, the call location and the i-th reading of the clock made during
    the call; the clock is read once for each comment, and two lines are
    logged, both with the number of comments. *)
Theorem traced_metadata `{DL : DateLib} `{CD : CoreData}
    (user dataset_name : string) (raw_comments : list loc)
    (comments : list (gmap string json)) (table : UuidTable)
    (lut : gmap pykey json) (w : world) :
  NoDup raw_comments ->
  held (heap w) raw_comments comments ->
  Forall comment_ok comments ->
  Forall validates comments ->
  data_to_uuid_batch table (author_set comments) = Ok lut ->
  Forall (known lut) comments ->
  ∃ traced w',
    convert_facebook_comments_to_traced_data user dataset_name raw_comments
      table w = (Ok traced, w')
    ∧ length traced = length raw_comments
    ∧ (forall i td,
         traced !! i = Some td ->
         td_metadata td
         = {| md_user := user;
              md_source := get_call_location;
              md_timestamp := utc_now (clock_reads w + i) |})
    ∧ clock_reads w' = clock_reads w + length raw_comments
    ∧ trace w'
      = trace w
        ++ [EvLog INFO ("Converting " ++ pretty (length raw_comments)
                        ++ " Facebook comments to TracedData...")%string None;
            EvLog INFO ("Converted " ++ pretty (length raw_comments)
                        ++ " Facebook comments to TracedData")%string None].
Proof.
  intros Hnd Hheld Hok Hval Htable Hknown.
  assert (Hlen : length comments = length raw_comments)
    by (symmetry; eapply Forall2_length; exact Hheld).
  rewrite (convert_unfold user dataset_name raw_comments comments table w
             Hheld (comment_ok_author comments Hok)).
  rewrite Htable, bind_run.
  rewrite (convert_loop_run user dataset_name lut raw_comments comments [])
    by assumption.
  rewrite bind_run. unfold log_info. rewrite emit_run, ret_run.
  eexists _, _. split; [reflexivity|]. simpl.
  split; [rewrite length_imap; exact Hlen|].
  split; [|split; [reflexivity|]].
  - intros i td Htd. rewrite list_lookup_imap in Htd.
    destruct (comments !! i) as [comment|]; [|discriminate].
    injection Htd as <-. reflexivity.
  - rewrite length_imap, Hlen, <- app_assoc. reflexivity.
Qed.

Lemma traced_metadata_witness :
  ∃ traced w',
    convert_facebook_comments_to_traced_data (DL := Mock.dates)
      (CD := Mock.core) "analyst" "facebook_s01" [0; 1] Mock.table
      Mock.two_comments = (Ok traced, w')
    ∧ length traced = 2
    ∧ clock_reads w' = 2.
Proof.
  destruct two_comments_held as (Hnd & Hheld & Hok & Hval & Hknown).
  destruct (traced_metadata (DL := Mock.dates) (CD := Mock.core)
              "analyst" "facebook_s01" [0; 1] [Mock.comment1; Mock.comment2]
              Mock.table Mock.uuids Mock.two_comments Hnd Hheld Hok Hval
              eq_refl Hknown) as (traced & w' & Hrun & Hlen & _ & Hclock & _).
  exists traced, w'. repeat split; assumption.
Defined.

Section Again.
Context `{DL : DateLib} `{CD : CoreData}.

Lemma rewritten_twice (comment : gmap string json) :
  reserialized (rewritten comment) = reserialized comment ->
  rewritten (rewritten comment) = rewritten comment.
Proof.
  intros Hsame. unfold rewritten at 1. rewrite Hsame.
  unfold rewritten. destruct (reserialized comment) as [s|]; [|reflexivity].
  apply insert_insert_eq.
Qed.

Lemma author_set_rewritten (comments : list (gmap string json)) :
  author_set (rewritten <$> comments) = author_set comments.
Proof.
  unfold author_set. f_equal.
  induction comments as [|comment comments IH]; [reflexivity|].
  simpl. rewrite author_id_rewritten.
  destruct (author_id comment); simpl; [f_equal|]; exact IH.
Qed.

Lemma held_rewrite_all (raw_comments : list loc)
    (comments : list (gmap string json)) (h : gmap loc (gmap string json)) :
  NoDup raw_comments -> held h raw_comments comments ->
  held (rewrite_all raw_comments h) raw_comments (rewritten <$> comments).
Proof.
  intros Hnd Hheld.
  destruct (rewrite_all_lookup raw_comments comments h Hnd Hheld) as [Hin _].
  apply Forall2_same_length_lookup_2.
  - rewrite length_fmap. eapply Forall2_length. exact Hheld.
  - intros i c comment' Hi Hcm. rewrite list_lookup_fmap in Hcm.
    destruct (comments !! i) as [comment|] eqn:Hcomment; [|discriminate].
    injection Hcm as <-. apply (Hin i c comment Hi Hcomment).
Qed.

Lemma rewrite_all_again (raw_comments : list loc)
    (comments : list (gmap string json)) (h : gmap loc (gmap string json)) :
  NoDup raw_comments -> held h raw_comments comments ->
  Forall (fun comment =>
            reserialized (rewritten comment) = reserialized comment)
    comments ->
  rewrite_all raw_comments (rewrite_all raw_comments h)
  = rewrite_all raw_comments h.
Proof.
  intros Hnd Hheld Hsame. apply map_eq. intros c.
  pose proof (held_rewrite_all raw_comments comments h Hnd Hheld) as Hheld'.
  destruct (rewrite_all_lookup raw_comments comments h Hnd Hheld)
    as [Hin Hout].
  destruct (rewrite_all_lookup raw_comments (rewritten <$> comments)
              (rewrite_all raw_comments h) Hnd Hheld') as [Hin' Hout'].
  destruct (decide (c ∈ raw_comments)) as [Hc|Hc]; [|apply Hout', Hc].
  apply list_elem_of_lookup in Hc as [i Hi].
  destruct (Forall2_lookup_l _ _ _ _ _ Hheld Hi) as (comment & Hcm & _).
  rewrite (Hin i c comment Hi Hcm).
  rewrite (Hin' i c (rewritten comment) Hi)
    by (rewrite list_lookup_fmap, Hcm; reflexivity).
  rewrite rewritten_twice; [reflexivity|].
  rewrite Forall_forall in Hsame. apply Hsame.
  eapply list_elem_of_lookup_2. exact Hcm.
Qed.

End Again.

(** X15. Converting the same comments a second time changes nothing more:
    when a rewritten timestamp is parsed and written to the same string
    again, the second call leaves the store as the first left it and
    returns records with the same data as the first; they differ in the
    clock readings only. *)
Theorem second_conversion_changes_nothing `{DL : DateLib} `{CD : CoreData}
    (user dataset_name : string) (raw_comments : list loc)
    (comments : list (gmap string json)) (table : UuidTable)
    (lut : gmap pykey json) (w : world) :
  NoDup raw_comments ->
  held (heap w) raw_comments comments ->
  Forall comment_ok comments ->
  Forall validates comments ->
  data_to_uuid_batch table (author_set comments) = Ok lut ->
  Forall (known lut) comments ->
  Forall (fun comment =>
            reserialized (rewritten comment) = reserialized comment)
    comments ->
  ∃ traced1 w1 traced2 w2,
    convert_facebook_comments_to_traced_data user dataset_name raw_comments
      table w = (Ok traced1, w1)
    ∧ convert_facebook_comments_to_traced_data user dataset_name
        raw_comments table w1 = (Ok traced2, w2)
    ∧ heap w2 = heap w1
    ∧ td_data <$> traced2 = td_data <$> traced1.
Proof.
  intros Hnd Hheld Hok Hval Htable Hknown Hsame.
  destruct (convert_run user dataset_name raw_comments comments table lut w
              Hnd Hheld Hok Hval Htable Hknown) as [t1 Hrun1].
  rewrite Forall_forall in Hok, Hval, Hknown, Hsame.
  match type of Hrun1 with
  | _ = (_, ?w1) =>
      destruct (convert_run user dataset_name raw_comments
                  (rewritten <$> comments) table lut w1) as [t2 Hrun2]
  end.
  - exact Hnd.
  - apply held_rewrite_all; assumption.
  - apply Forall_fmap, Forall_forall. intros comment Hin.
    destruct (Hok comment Hin) as [Hid Hs]. split.
    + rewrite author_id_rewritten. exact Hid.
    + simpl. rewrite (Hsame comment Hin). exact Hs.
  - apply Forall_fmap, Forall_forall. intros comment Hin.
    destruct (Hval comment Hin) as (s & Hs & Hv). exists s.
    split; [|exact Hv]. simpl. rewrite (Hsame comment Hin). exact Hs.
  - rewrite author_set_rewritten. exact Htable.
  - apply Forall_fmap, Forall_forall. intros comment Hin.
    destruct (Hknown comment Hin) as (id & Hid & Hlut). exists id.
    split; [|exact Hlut]. simpl. rewrite author_id_rewritten. exact Hid.
  - eexists _, _, _, _. split; [exact Hrun1|]. split; [exact Hrun2|].
    simpl. split.
    + apply (rewrite_all_again raw_comments comments (heap w) Hnd Hheld).
      apply Forall_forall. exact Hsame.
    + apply list_eq. intros i.
      rewrite !list_lookup_fmap, !list_lookup_imap, list_lookup_fmap.
      destruct (comments !! i) as [comment|] eqn:Hcm; [|reflexivity].
      simpl. f_equal. unfold traced_of. cbn [td_data].
      assert (Hin : comment ∈ comments)
        by (eapply list_elem_of_lookup_2; exact Hcm).
      rewrite (rewritten_twice comment (Hsame comment Hin)).
      unfold pseudonym. rewrite author_id_rewritten. reflexivity.
Qed.

Lemma second_conversion_changes_nothing_witness :
  ∃ traced1 w1 traced2 w2,
    convert_facebook_comments_to_traced_data (DL := Mock.dates)
      (CD := Mock.core) "analyst" "facebook_s01" [0; 1] Mock.table
      Mock.two_comments = (Ok traced1, w1)
    ∧ convert_facebook_comments_to_traced_data (DL := Mock.dates)
        (CD := Mock.core) "analyst" "facebook_s01" [0; 1] Mock.table w1
      = (Ok traced2, w2)
    ∧ heap w2 = heap w1
    ∧ td_data <$> traced2 = td_data <$> traced1.
Proof.
  destruct two_comments_held as (Hnd & Hheld & Hok & Hval & Hknown).
  apply (second_conversion_changes_nothing (DL := Mock.dates)
           (CD := Mock.core) "analyst" "facebook_s01" [0; 1]
           [Mock.comment1; Mock.comment2] Mock.table Mock.uuids
           Mock.two_comments Hnd Hheld Hok Hval eq_refl Hknown).
  each_comment ltac:(vm_compute; reflexivity).
Defined.
